(** * connectHierarchicalMenu: the refinement adapter of the hierarchical menu

    A shallow embedding of the connector's functions ([getId],
    [getCurrentRefinement], [getValue], [transformValue], [getProps],
    [refine], [getSearchParameters], [getMetadata]) and the proofs of
    the properties stated about them.

    JavaScript objects used as mappings (the widgets' state) are finite
    maps from property names to values; only their own properties are
    modelled.  Numbers are the integers ([Z]).  A [throw] is the [Throw]
    result.  The search engine (algoliasearch-helper) is outside the
    connector: its operations are the fields of the [Engine] interface. *)

From Stdlib Require Import ZArith String List Lia.
From stdpp Require Import base option list gmap strings.

Local Open Scope string_scope.
Local Open Scope Z_scope.

(** ** JavaScript values *)

(** The values that a state entry, a refinement or an optional string
    prop can hold. *)
Inductive jsval : Type :=
| VUndefined
| VNull
| VString (s : string).

#[global] Instance jsval_eq_dec : EqDecision jsval.
Proof. solve_decision. Defined.

(** [typeof v !== 'undefined'] *)
Definition isDefined (v : jsval) : bool :=
  match v with VUndefined => false | _ => true end.

(** ToBoolean: [undefined], [null] and [''] are falsy. *)
Definition truthy (v : jsval) : bool :=
  match v with
  | VUndefined | VNull => false
  | VString EmptyString => false
  | VString _ => true
  end.

(** ToString, as used by template literals and computed property keys. *)
Definition toString (v : jsval) : string :=
  match v with
  | VUndefined => "undefined"
  | VNull => "null"
  | VString s => s
  end.

(** [a || b] *)
Definition jsOr (a b : jsval) : jsval := if truthy a then a else b.

(** ** Results of calls that may throw *)

Inductive exn : Type :=
| Error (message : string)
| TypeError (message : string).

Inductive Result (A : Type) : Type :=
| Ok (a : A)
| Throw (e : exn).
Arguments Ok {A} a.
Arguments Throw {A} e.

(** Sequencing: the first [Throw] ends the call.  With this instance
    [x ← r; k] is stdpp's notation for it. *)
#[global] Instance Result_bind : MBind Result := fun A B k r =>
  match r with
  | Ok a => k a
  | Throw e => Throw e
  end.
#[global] Instance Result_ret : MRet Result := @Ok.

(** The error every entry point throws on a missing attribute list. *)
Definition ConfigurationError : exn :=
  Error "attributes props should at least have one element".

(** ** Arrays *)

(** The clamping of a relative index of [Array.prototype.slice]. *)
Definition relativeIndex (len i : Z) : Z :=
  if i <? 0 then Z.max (len + i) 0 else Z.min i len.

(** [l.slice(start, end_)] *)
Definition slice {A : Type} (l : list A) (start end_ : Z) : list A :=
  let len := Z.of_nat (length l) in
  let k := relativeIndex len start in
  let final := relativeIndex len end_ in
  take (Z.to_nat (final - k)) (drop (Z.to_nat k) l).

(** [l[0]] on an array of strings. *)
Definition first (l : list string) : jsval :=
  match l with
  | [] => VUndefined
  | a :: _ => VString a
  end.

(** [l.slice(0, n).map(f)] for a callback that may throw, in one
    structural pass: [f] on the first [n] elements, left to right, up to
    the first [Throw]. *)
Definition sliceMap {A B : Type} (f : A -> Result B)
  : nat -> list A -> Result (list B) :=
  fix go (n : nat) (l : list A) {struct l} : Result (list B) :=
    match l, n with
    | x :: t, S n' => y ← f x; ys ← go n' t; Ok (y :: ys)
    | _, _ => Ok []
    end.

(** [o || d] on an optional number: [undefined] and [0] are falsy. *)
Definition numOr (o : option Z) (d : Z) : Z :=
  match o with
  | None => d
  | Some m => if m =? 0 then d else m
  end.

(** ** The data model *)

(** The widget's props. [id] is the prop of that name, which only
    [getValue] reads. *)
Module Props.
Record t : Type := make {
  attributes : option (list string);
  id : jsval;
  separator : jsval;
  rootPath : jsval;
  showParentLevel : bool;
  showMore : bool;
  limitMin : Z;
  limitMax : Z;
  defaultRefinement : jsval
}.
End Props.

(** The widgets' state: property name to value.  Reading a property that
    is absent gives [undefined]. *)
Abbreviation State := (gmap string jsval).

Definition getProp (o : State) (key : jsval) : jsval :=
  default VUndefined (o !! toString key).

(** [{...o, [key]: v}] *)
Definition setProp (o : State) (key : jsval) (v : jsval) : State :=
  <[toString key := v]> o.

(** The declaration of a hierarchical facet handed to the engine. *)
Module HierarchicalFacet.
Record t : Type := make {
  name : jsval;
  attributes : option (list string);
  separator : jsval;
  rootPath : jsval;
  showParentLevel : bool
}.
End HierarchicalFacet.

(** A node of the facet-value tree the engine returns. *)
Module FacetValue.
#[local] Unset Elimination Schemes.
Inductive t : Type := make {
  name : string;
  path : string;
  count : Z;
  isRefined : bool;
  data : option (list t)
}.
End FacetValue.

(** What [getFacetValues] returns: only [data] is read. *)
Module FacetValues.
Record t : Type := make {
  data : option (list FacetValue.t)
}.
End FacetValues.

(** A node of the display tree. *)
Module Item.
#[local] Unset Elimination Schemes.
Inductive t : Type := make {
  label : string;
  value : jsval;
  count : Z;
  isRefined : bool;
  children : option (list t)
}.
End Item.

(** ** The search engine *)

(** The message with which the engine refuses to declare a hierarchical
    facet a second time starts with this text. *)
Definition duplicateFacet : string :=
  "Cannot declare two hierarchical facets with the same name".

(** The operations of the engine the connector calls, on its immutable
    search parameters and on its results.  [addHierarchicalFacet] throws
    when the parameters already declare a hierarchical facet of that name
    ([isHierarchicalFacet]) and returns otherwise; the declared names
    change by [addHierarchicalFacet] only.  [setQueryParameters] sets
    [maxValuesPerFacet], and toggling a refinement leaves it alone.  The
    connector toggles a refinement only on a facet it has just declared,
    where the engine returns. *)
Class Engine : Type := {
  SearchParameters : Type;
  SearchResults : Type;
  Facet : Type;
  (** [new SearchParameters({hierarchicalFacets})] *)
  newSearchParameters : list HierarchicalFacet.t -> SearchParameters;
  (** the field [maxValuesPerFacet], [None] when undefined *)
  maxValuesPerFacet : SearchParameters -> option Z;
  (** whether a hierarchical facet of that name is declared *)
  isHierarchicalFacet : SearchParameters -> jsval -> bool;
  addHierarchicalFacet :
    SearchParameters -> HierarchicalFacet.t -> Result SearchParameters;
  (** [setQueryParameters({maxValuesPerFacet})] *)
  setQueryParameters : SearchParameters -> Z -> SearchParameters;
  toggleHierarchicalFacetRefinement :
    SearchParameters -> jsval -> jsval -> SearchParameters;
  getHierarchicalRefinement : SearchParameters -> jsval -> list string;
  getFacetByName : SearchResults -> jsval -> option Facet;
  (** [getFacetValues(name, {sortBy})] *)
  getFacetValues : SearchResults -> jsval -> list string -> FacetValues.t;
  maxValuesPerFacet_set : forall sp n,
    maxValuesPerFacet (setQueryParameters sp n) = Some n;
  maxValuesPerFacet_toggle : forall sp f v,
    maxValuesPerFacet (toggleHierarchicalFacetRefinement sp f v)
    = maxValuesPerFacet sp;
  addHierarchicalFacet_declared : forall sp facet,
    isHierarchicalFacet sp (HierarchicalFacet.name facet) = true ->
    exists detail,
      addHierarchicalFacet sp facet
      = Throw (Error (duplicateFacet ++ detail)%string);
  addHierarchicalFacet_fresh : forall sp facet,
    isHierarchicalFacet sp (HierarchicalFacet.name facet) = false ->
    exists sp', addHierarchicalFacet sp facet = Ok sp';
  isHierarchicalFacet_add : forall sp facet sp' name,
    addHierarchicalFacet sp facet = Ok sp' ->
    isHierarchicalFacet sp' name
    = isHierarchicalFacet sp name
      || bool_decide (HierarchicalFacet.name facet = name);
  isHierarchicalFacet_set : forall sp n name,
    isHierarchicalFacet (setQueryParameters sp n) name
    = isHierarchicalFacet sp name;
  isHierarchicalFacet_toggle : forall sp f v name,
    isHierarchicalFacet (toggleHierarchicalFacetRefinement sp f v) name
    = isHierarchicalFacet sp name
}.

(** The [search] argument of [getProps]. *)
Module Search.
Record t `{Engine} : Type := make {
  results : option SearchResults
}.
End Search.

(** ** The connector *)

(** [props.attributes[0]]; reading index 0 of [undefined] throws. *)
Definition getId (props : Props.t) : Result jsval :=
  match Props.attributes props with
  | None => Throw (TypeError "Cannot read property '0' of undefined")
  | Some attributes => Ok (first attributes)
  end.

Definition getCurrentRefinement (props : Props.t) (state : State)
  : Result jsval :=
  id ← getId props;
  if isDefined (getProp state id) then
    if decide (getProp state id = VString "") then Ok VNull
    else Ok (getProp state id)
  else if truthy (Props.defaultRefinement props) then
    Ok (Props.defaultRefinement props)
  else Ok VNull.

(** [typeof attributes === 'undefined' || !attributes.length] *)
Definition attributesMissing (attributes : option (list string)) : bool :=
  match attributes with
  | None => true
  | Some l => Nat.eqb (length l) 0
  end.

(** What [getProps] hands to the widget. *)
Module ViewProps.
Record t : Type := make {
  items : list Item.t;
  currentRefinement : jsval
}.
End ViewProps.

(** An entry of the metadata: [value] is the function that clears the
    refinement in a state. *)
Module MetaItem.
Record t : Type := make {
  label : string;
  attributeName : jsval;
  value : State -> State;
  currentRefinement : jsval
}.
End MetaItem.

Module Metadata.
Record t : Type := make {
  id : jsval;
  items : list MetaItem.t
}.
End Metadata.

Definition sortBy : list string := ["name:asc"].

Section Connector.
Context {engine : Engine}.

Definition getValue (path : string) (props : Props.t) (state : State)
  : Result jsval :=
  let id := Props.id props in
  currentRefinement ← getCurrentRefinement props state;
  if decide (currentRefinement = VNull) then Ok (VString path)
  else
    let tmpSearchParameters :=
      newSearchParameters
        [ {| HierarchicalFacet.name := id;
             HierarchicalFacet.attributes := Props.attributes props;
             HierarchicalFacet.separator := Props.separator props;
             HierarchicalFacet.rootPath := Props.rootPath props;
             HierarchicalFacet.showParentLevel := Props.showParentLevel props |} ]
    in
    Ok (first
          (getHierarchicalRefinement
             (toggleHierarchicalFacetRefinement
                (toggleHierarchicalFacetRefinement tmpSearchParameters
                   id currentRefinement)
                id (VString path))
             id)).

(** The callback of [transformValue]'s [map], on one node.  The
    recursive call on [v.data] is [sliceMap] over the first
    [relativeIndex len limit] children, which is [slice(0, limit)] and
    [map] ([transformValue_unfold] below). *)
Fixpoint transformNode (limit : Z) (props : Props.t) (state : State)
  (v : FacetValue.t) {struct v} : Result Item.t :=
  match v with
  | FacetValue.make name path count isRefined data =>
    value ← getValue path props state;
    children ←
      match data with
      | None => Ok None
      | Some vs =>
        items ← sliceMap (transformNode limit props state)
                  (Z.to_nat (relativeIndex (Z.of_nat (length vs)) limit)) vs;
        Ok (Some items)
      end;
    Ok {| Item.label := name;
          Item.value := value;
          Item.count := count;
          Item.isRefined := isRefined;
          Item.children := children |}
  end.

Definition transformValue (value : list FacetValue.t) (limit : Z)
  (props : Props.t) (state : State) : Result (list Item.t) :=
  let limitValue := slice value 0 limit in
  mapM (transformNode limit props state) limitValue.

(** [null] is [None]. *)
Definition getProps (props : Props.t) (state : State) (search : Search.t)
  : Result (option ViewProps.t) :=
  if attributesMissing (Props.attributes props) then Throw ConfigurationError
  else
    id ← getId props;
    match Search.results search with
    | None => Ok None
    | Some results =>
      if getFacetByName results id is Some _ then
        let limit :=
          if Props.showMore props then Props.limitMax props
          else Props.limitMin props in
        let value := getFacetValues results id sortBy in
        items ←
          match FacetValues.data value with
          | Some data => transformValue data limit props state
          | None => Ok []
          end;
        currentRefinement ← getCurrentRefinement props state;
        Ok (Some {| ViewProps.items := items;
                    ViewProps.currentRefinement := currentRefinement |})
      else Ok None
    end.

(** The contents of the object [refine] returns. *)
Definition refine (props : Props.t) (state : State) (nextRefinement : jsval)
  : Result State :=
  if attributesMissing (Props.attributes props) then Throw ConfigurationError
  else
    id ← getId props;
    Ok (setProp state id (jsOr nextRefinement (VString ""))).

Definition getSearchParameters (searchParameters : SearchParameters)
  (props : Props.t) (state : State) : Result SearchParameters :=
  if attributesMissing (Props.attributes props) then Throw ConfigurationError
  else
    id ← getId props;
    let limit :=
      if Props.showMore props then Props.limitMax props
      else Props.limitMin props in
    declared ←
      addHierarchicalFacet searchParameters
        {| HierarchicalFacet.name := id;
           HierarchicalFacet.attributes := Props.attributes props;
           HierarchicalFacet.separator := Props.separator props;
           HierarchicalFacet.rootPath := Props.rootPath props;
           HierarchicalFacet.showParentLevel := Props.showParentLevel props |};
    let searchParameters' :=
      setQueryParameters declared
        (Z.max (numOr (maxValuesPerFacet searchParameters) 0) limit) in
    currentRefinement ← getCurrentRefinement props state;
    if decide (currentRefinement = VNull) then Ok searchParameters'
    else
      Ok (toggleHierarchicalFacetRefinement searchParameters'
            id currentRefinement).

Definition getMetadata (props : Props.t) (state : State)
  : Result Metadata.t :=
  if attributesMissing (Props.attributes props) then Throw ConfigurationError
  else
    rootAttribute ← getId props;
    id ← getId props;
    currentRefinement ← getCurrentRefinement props state;
    Ok {| Metadata.id := id;
          Metadata.items :=
            if negb (truthy currentRefinement) then []
            else
              [ {| MetaItem.label :=
                     toString rootAttribute ++ ": "
                       ++ toString currentRefinement;
                   MetaItem.attributeName := rootAttribute;
                   MetaItem.value :=
                     fun nextState => setProp nextState id (VString "");
                   MetaItem.currentRefinement := currentRefinement |} ] |}.

End Connector.

(** ** Object identity *)

(** The objects alive in the program, by reference.  The object literal
    [{...state, [id]: ...}] of [refine] allocates a new object and
    writes to no other. *)
Abbreviation Store := (gmap positive State).

Definition refineInStore (props : Props.t) (store : Store) (state : positive)
  (nextRefinement : jsval) : Result (positive * Store) :=
  object ← refine props (store !!! state) nextRefinement;
  let reference := fresh (dom store) in
  Ok (reference, <[reference := object]> store).

(** ** Sibling counts of a display tree *)

(** Every list of children below [item] has at most [limit] entries. *)
Fixpoint childrenWithin (limit : Z) (item : Item.t) {struct item} : bool :=
  match item with
  | Item.make _ _ _ _ None => true
  | Item.make _ _ _ _ (Some children) =>
    (Z.of_nat (length children) <=? limit)
    && forallb (childrenWithin limit) children
  end.

(** The same for a list of siblings, itself included. *)
Definition siblingsWithin (limit : Z) (items : list Item.t) : bool :=
  (Z.of_nat (length items) <=? limit) && forallb (childrenWithin limit) items.

(** ** An engine to run the connector on *)

(** A small engine that implements the interface, to evaluate the
    connector on concrete inputs: search parameters hold the declared
    facets and, per facet name, the selected paths; declaring a name twice
    throws; toggling the selected path clears it, toggling another path
    selects it instead. *)
Module FlatEngine.

Record parameters : Type := make {
  maxValues : option Z;
  hierarchicalFacets : list HierarchicalFacet.t;
  refinements : gmap string (list string)
}.

Definition toggle (sp : parameters) (facet value : jsval) : parameters :=
  let selected := default [] (refinements sp !! toString facet) in
  {| maxValues := maxValues sp;
     hierarchicalFacets := hierarchicalFacets sp;
     refinements :=
       <[toString facet :=
           if decide (selected = [toString value]) then []
           else [toString value]]> (refinements sp) |}.

Definition declares (sp : parameters) (name : jsval) : bool :=
  existsb (fun facet => bool_decide (HierarchicalFacet.name facet = name))
    (hierarchicalFacets sp).

Definition declare (sp : parameters) (facet : HierarchicalFacet.t)
  : Result parameters :=
  if declares sp (HierarchicalFacet.name facet) then
    Throw (Error (duplicateFacet ++ ": `"
                    ++ toString (HierarchicalFacet.name facet) ++ "`")%string)
  else
    Ok {| maxValues := maxValues sp;
          hierarchicalFacets := hierarchicalFacets sp ++ [facet];
          refinements := refinements sp |}.

#[export] Instance engine : Engine.
Proof.
  refine {|
    SearchParameters := parameters;
    SearchResults := gmap string FacetValues.t;
    Facet := FacetValues.t;
    newSearchParameters := fun facets =>
      {| maxValues := None; hierarchicalFacets := facets; refinements := ∅ |};
    maxValuesPerFacet := maxValues;
    isHierarchicalFacet := declares;
    addHierarchicalFacet := declare;
    setQueryParameters := fun sp n =>
      {| maxValues := Some n;
         hierarchicalFacets := hierarchicalFacets sp;
         refinements := refinements sp |};
    toggleHierarchicalFacetRefinement := toggle;
    getHierarchicalRefinement := fun sp facet =>
      default [] (refinements sp !! toString facet);
    getFacetByName := fun results facet => results !! toString facet;
    getFacetValues := fun results facet _ =>
      default {| FacetValues.data := None |} (results !! toString facet);
    maxValuesPerFacet_set := fun _ _ => eq_refl;
    maxValuesPerFacet_toggle := fun _ _ _ => eq_refl;
    isHierarchicalFacet_set := fun _ _ _ => eq_refl;
    isHierarchicalFacet_toggle := fun _ _ _ _ => eq_refl
  |}.
  - intros sp facet H. unfold declare. rewrite H. eexists. reflexivity.
  - intros sp facet H. unfold declare. rewrite H. eexists. reflexivity.
  - intros sp facet sp' name. unfold declare.
    destruct (declares sp (HierarchicalFacet.name facet)); [discriminate|].
    intros [= <-]. unfold declares. simpl.
    rewrite existsb_app. simpl. rewrite orb_false_r. reflexivity.
Defined.

End FlatEngine.

(** ** Inputs used in the examples *)

Definition categories : Props.t :=
  {| Props.attributes := Some ["categories"];
     Props.id := VUndefined;
     Props.separator := VString " > ";
     Props.rootPath := VNull;
     Props.showParentLevel := true;
     Props.showMore := false;
     Props.limitMin := 10;
     Props.limitMax := 20;
     Props.defaultRefinement := VUndefined |}.

Definition withDefault (props : Props.t) (defaultRefinement : jsval)
  : Props.t :=
  {| Props.attributes := Props.attributes props;
     Props.id := Props.id props;
     Props.separator := Props.separator props;
     Props.rootPath := Props.rootPath props;
     Props.showParentLevel := Props.showParentLevel props;
     Props.showMore := Props.showMore props;
     Props.limitMin := Props.limitMin props;
     Props.limitMax := Props.limitMax props;
     Props.defaultRefinement := defaultRefinement |}.

Definition withAttributes (props : Props.t)
  (attributes : option (list string)) : Props.t :=
  {| Props.attributes := attributes;
     Props.id := Props.id props;
     Props.separator := Props.separator props;
     Props.rootPath := Props.rootPath props;
     Props.showParentLevel := Props.showParentLevel props;
     Props.showMore := Props.showMore props;
     Props.limitMin := Props.limitMin props;
     Props.limitMax := Props.limitMax props;
     Props.defaultRefinement := Props.defaultRefinement props |}.

Definition leaf (name path : string) (count : Z) : FacetValue.t :=
  FacetValue.make name path count false None.

(** Shoes, with the two children Sneakers and Boots. *)
Definition shoes : FacetValue.t :=
  FacetValue.make "Shoes" "Shoes" 10 false
    (Some [leaf "Sneakers" "Shoes > Sneakers" 4;
           leaf "Boots" "Shoes > Boots" 6]).

Definition threeLeaves : list FacetValue.t :=
  [leaf "Bags" "Bags" 1; leaf "Hats" "Hats" 2; leaf "Socks" "Socks" 3].

(** A search without results yet. *)
Definition noResults : @Search.t FlatEngine.engine :=
  {| Search.results := None |}.

(** Results with the facet [categories] and the one value Shoes. *)
Definition shoeResults : @Search.t FlatEngine.engine :=
  {| Search.results :=
       Some {[ "categories" := {| FacetValues.data := Some [shoes] |} ]} |}.

(** Results with the facet [categories] and facet values without data. *)
Definition resultsWithoutData : @Search.t FlatEngine.engine :=
  {| Search.results :=
       Some {[ "categories" := {| FacetValues.data := None |} ]} |}.

(** Search parameters that already declare the facet [categories]. *)
Definition categoriesDeclared : FlatEngine.parameters :=
  {| FlatEngine.maxValues := None;
     FlatEngine.hierarchicalFacets :=
       [ {| HierarchicalFacet.name := VString "categories";
            HierarchicalFacet.attributes := Some ["categories"];
            HierarchicalFacet.separator := VString " > ";
            HierarchicalFacet.rootPath := VNull;
            HierarchicalFacet.showParentLevel := true |} ];
     FlatEngine.refinements := ∅ |}.

(** Search parameters that already ask for 50 values per facet. *)
Definition fiftyValues : FlatEngine.parameters :=
  {| FlatEngine.maxValues := Some 50;
     FlatEngine.hierarchicalFacets := [];
     FlatEngine.refinements := ∅ |}.

(** ** Facet-value trees that fit a limit *)

(** Every list of children below [v] has at most [limit] entries. *)
Fixpoint dataWithin (limit : Z) (v : FacetValue.t) {struct v} : bool :=
  match v with
  | FacetValue.make _ _ _ _ None => true
  | FacetValue.make _ _ _ _ (Some data) =>
    (Z.of_nat (length data) <=? limit) && forallb (dataWithin limit) data
  end.

(** The same for a list of sibling nodes, itself included. *)
Definition valuesWithin (limit : Z) (value : list FacetValue.t) : bool :=
  (Z.of_nat (length value) <=? limit) && forallb (dataWithin limit) value.

(** The display tree of a node when nothing is cut: the node's fields,
    the value [valueOf] gives for its path, and all its children. *)
Fixpoint displayTree (valueOf : string -> jsval) (v : FacetValue.t)
  {struct v} : Item.t :=
  match v with
  | FacetValue.make name path count isRefined data =>
    {| Item.label := name;
       Item.value := valueOf path;
       Item.count := count;
       Item.isRefined := isRefined;
       Item.children :=
         match data with
         | None => None
         | Some vs => Some (map (displayTree valueOf) vs)
         end |}
  end.

(** A second widget, on the attribute [brand], with a default. *)
Definition brand : Props.t :=
  {| Props.attributes := Some ["brand"];
     Props.id := VUndefined;
     Props.separator := VString " > ";
     Props.rootPath := VNull;
     Props.showParentLevel := true;
     Props.showMore := true;
     Props.limitMin := 5;
     Props.limitMax := 30;
     Props.defaultRefinement := VString "Acme" |}.

(** * Properties *)

(** ** Values and identifiers *)

Lemma truthy_string (v : jsval) :
  truthy v = true <-> exists s, v = VString s /\ s <> "".
Proof.
  split.
  - destruct v as [| |[|c s]]; simpl; try discriminate.
    intros _. exists (String c s). split; [reflexivity|discriminate].
  - intros (s & -> & Hs). destruct s; [contradiction|reflexivity].
Qed.

Lemma isDefined_false (v : jsval) : isDefined v = false <-> v = VUndefined.
Proof. destruct v; simpl; split; congruence. Qed.

Lemma getId_attributes (props : Props.t) (attributes : list string) :
  Props.attributes props = Some attributes ->
  getId props = Ok (first attributes).
Proof. intros H. unfold getId. rewrite H. reflexivity. Qed.

Lemma getId_Ok (props : Props.t) (id : jsval) :
  getId props = Ok id ->
  exists attributes,
    Props.attributes props = Some attributes /\ id = first attributes.
Proof.
  unfold getId. destruct (Props.attributes props) as [l|]; [|discriminate].
  intros [= <-]. eauto.
Qed.

Lemma attributesMissing_false (attributes : option (list string)) :
  attributesMissing attributes = false <->
  exists a rest, attributes = Some (a :: rest).
Proof.
  split.
  - destruct attributes as [[|a rest]|]; simpl; try discriminate. eauto.
  - intros (a & rest & ->). reflexivity.
Qed.

Lemma attributesMissing_true (attributes : option (list string)) :
  attributesMissing attributes = true <->
  attributes = None \/ attributes = Some [].
Proof.
  destruct attributes as [[|a rest]|]; simpl; split; intros H; auto;
    try discriminate; destruct H; discriminate.
Qed.

(** ** The current refinement *)

(** [getCurrentRefinement] by cases on the state entry. *)
Lemma getCurrentRefinement_cases (props : Props.t) (state : State) (id : jsval) :
  getId props = Ok id ->
  getCurrentRefinement props state =
    Ok (match getProp state id with
        | VUndefined =>
          if truthy (Props.defaultRefinement props)
          then Props.defaultRefinement props else VNull
        | VString "" => VNull
        | entry => entry
        end).
Proof.
  intros Hid. unfold getCurrentRefinement. rewrite Hid. simpl.
  destruct (getProp state id) as [| |[|c s]]; simpl; try reflexivity.
  destruct (truthy _); reflexivity.
Qed.

(** The current refinement is [null] or a non-empty string. *)
Lemma getCurrentRefinement_range (props : Props.t) (state : State)
  (current : jsval) :
  getCurrentRefinement props state = Ok current ->
  current = VNull \/ exists s, current = VString s /\ s <> "".
Proof.
  unfold getCurrentRefinement.
  destruct (getId props) as [id|e] eqn:Hid; simpl; [|discriminate].
  destruct (getProp state id) as [| |[|c s]] eqn:Hentry; simpl.
  - destruct (truthy (Props.defaultRefinement props)) eqn:Ht.
    + intros [= <-]. right. by apply truthy_string.
    + intros [= <-]. by left.
  - intros [= <-]. by left.
  - intros [= <-]. by left.
  - intros [= <-]. right. by exists (String c s).
Qed.

(** C2, as the code has it: the state entry when it is defined and not
    the empty string; [null] when it is the empty string, whatever the
    default; with no entry, the default refinement when it is a non-empty
    string (the test is on its truthiness), and [null] when it is
    undefined, [null] or the empty string. *)
Theorem getCurrentRefinement_order (props : Props.t) (state : State)
  (id : jsval) :
  getId props = Ok id ->
  (getProp state id <> VUndefined -> getProp state id <> VString "" ->
   getCurrentRefinement props state = Ok (getProp state id))
  /\ (getProp state id = VString "" ->
      getCurrentRefinement props state = Ok VNull)
  /\ (getProp state id = VUndefined ->
      forall s, Props.defaultRefinement props = VString s -> s <> "" ->
      getCurrentRefinement props state = Ok (VString s))
  /\ (getProp state id = VUndefined ->
      Props.defaultRefinement props = VUndefined
      \/ Props.defaultRefinement props = VNull
      \/ Props.defaultRefinement props = VString "" ->
      getCurrentRefinement props state = Ok VNull).
Proof.
  intros Hid. rewrite (getCurrentRefinement_cases _ _ _ Hid).
  repeat split.
  - intros Hu He. destruct (getProp state id) as [| |[|c s]]; congruence.
  - intros ->. reflexivity.
  - intros -> s Hd Hs. rewrite Hd.
    destruct s; [contradiction|reflexivity].
  - intros -> [->|[->| ->]]; reflexivity.
Qed.

Lemma getCurrentRefinement_order_witness :
  getId (withDefault categories (VString "clothing")) = Ok (VString "categories")
  /\ getCurrentRefinement (withDefault categories (VString "clothing")) ∅
     = Ok (VString "clothing")
  /\ getCurrentRefinement (withDefault categories (VString "clothing"))
       {[ "categories" := VString "" ]} = Ok VNull
  /\ getCurrentRefinement (withDefault categories (VString "clothing"))
       {[ "categories" := VString "shoes" ]} = Ok (VString "shoes")
  /\ getCurrentRefinement categories ∅ = Ok VNull.
Proof.
  split; [reflexivity|].
  split.
  { destruct (getCurrentRefinement_order
                (withDefault categories (VString "clothing")) ∅
                (VString "categories")) as (_ & _ & H & _); [reflexivity|].
    apply H; [reflexivity|reflexivity|discriminate]. }
  split.
  { destruct (getCurrentRefinement_order
                (withDefault categories (VString "clothing"))
                {[ "categories" := VString "" ]}
                (VString "categories")) as (_ & H & _); [reflexivity|].
    apply H. reflexivity. }
  split.
  { destruct (getCurrentRefinement_order
                (withDefault categories (VString "clothing"))
                {[ "categories" := VString "shoes" ]}
                (VString "categories")) as (H & _); [reflexivity|].
    apply H; vm_compute; discriminate. }
  destruct (getCurrentRefinement_order categories ∅ (VString "categories"))
    as (_ & _ & _ & H); [reflexivity|].
  apply H; [reflexivity|]. left. reflexivity.
Defined.

(** C2 as stated fails: a default refinement that is present but is the
    empty string is not returned; the result is [null]. *)
Lemma default_present_not_returned :
  ~ (forall (props : Props.t) (state : State) (id : jsval),
       getId props = Ok id ->
       getProp state id = VUndefined ->
       Props.defaultRefinement props <> VUndefined ->
       getCurrentRefinement props state = Ok (Props.defaultRefinement props)).
Proof.
  intros H.
  assert (Hc : getCurrentRefinement (withDefault categories (VString "")) ∅
               = Ok (VString "")).
  { apply (H (withDefault categories (VString "")) ∅ (VString "categories"));
      [reflexivity|reflexivity|].
    simpl. discriminate. }
  vm_compute in Hc. discriminate Hc.
Qed.

(** C9: with the empty string as default refinement the widget behaves
    as with no default at all, on every state; so with no state entry the
    current refinement is [null]. *)
Theorem empty_default_is_no_default (props : Props.t) (state : State)
  (id : jsval) :
  getId props = Ok id ->
  Props.defaultRefinement props = VString "" ->
  getCurrentRefinement props state
  = getCurrentRefinement (withDefault props VUndefined) state
  /\ (getProp state id = VUndefined ->
      getCurrentRefinement props state = Ok VNull).
Proof.
  intros Hid Hd.
  assert (Hid' : getId (withDefault props VUndefined) = Ok id) by exact Hid.
  rewrite (getCurrentRefinement_cases _ _ _ Hid),
    (getCurrentRefinement_cases _ _ _ Hid'), Hd. simpl.
  split.
  - destruct (getProp state id); reflexivity.
  - intros ->. reflexivity.
Qed.

Lemma empty_default_is_no_default_witness :
  getId (withDefault categories (VString "")) = Ok (VString "categories")
  /\ Props.defaultRefinement (withDefault categories (VString "")) = VString ""
  /\ getProp (∅ : State) (VString "categories") = VUndefined
  /\ getCurrentRefinement (withDefault categories (VString "")) ∅ = Ok VNull.
Proof.
  split; [reflexivity|]. split; [reflexivity|]. split; [reflexivity|].
  apply (empty_default_is_no_default (withDefault categories (VString "")) ∅
           (VString "categories")); reflexivity.
Defined.

(** ** Arrays and callbacks that may throw *)

Lemma mapM_Ok {A B : Type} (f : A -> Result B) (l : list A) (k : list B) :
  mapM f l = Ok k <-> Forall2 (fun x y => f x = Ok y) l k.
Proof.
  revert k. induction l as [|x l IH]; intros k; simpl.
  - split.
    + intros [= <-]. constructor.
    + intros Hk. by inversion Hk.
  - split.
    + destruct (f x) as [y|e] eqn:Hx; simpl; [|discriminate].
      destruct (mapM f l) as [ys|e] eqn:Hl; simpl; [|discriminate].
      intros [= <-]. constructor; [exact Hx|]. by apply IH.
    + intros Hk. inversion Hk as [|? y ? ys Hx Hrest]; subst.
      rewrite Hx. simpl. apply IH in Hrest. rewrite Hrest. reflexivity.
Qed.

Lemma mapM_Ok_length {A B : Type} (f : A -> Result B) (l : list A)
  (k : list B) :
  mapM f l = Ok k -> length k = length l.
Proof. intros H. apply mapM_Ok in H. symmetry. by eapply Forall2_length. Qed.

Lemma mapM_Ok_lookup {A B : Type} (f : A -> Result B) (l : list A)
  (k : list B) (i : nat) (x : A) (y : B) :
  mapM f l = Ok k -> l !! i = Some x -> k !! i = Some y -> f x = Ok y.
Proof.
  intros H Hx Hy. apply mapM_Ok in H.
  exact (Forall2_lookup_lr _ _ _ _ _ _ H Hx Hy).
Qed.

Lemma mapM_Result_ext {A B : Type} (f g : A -> Result B) (l : list A) :
  (forall x, f x = g x) -> mapM f l = mapM g l.
Proof.
  intros Hfg. induction l as [|x l IH]; simpl; [reflexivity|].
  rewrite Hfg, IH. reflexivity.
Qed.

(** A callback that returns on every element makes the whole [map]
    return, and what holds of each of its results holds of all. *)
Lemma mapM_Ok_Forall {A B : Type} (f : A -> Result B) (Q : B -> Prop)
  (l : list A) :
  Forall (fun x => exists y, f x = Ok y /\ Q y) l ->
  exists k, mapM f l = Ok k /\ Forall Q k.
Proof.
  induction 1 as [|x l (y & Hy & HQ) _ (k & Hk & HQk)]; simpl.
  - exists []. split; [reflexivity|constructor].
  - exists (y :: k). rewrite Hy. simpl. rewrite Hk. simpl.
    split; [reflexivity|by constructor].
Qed.

Lemma sliceMap_mapM {A B : Type} (f : A -> Result B) (n : nat) (l : list A) :
  sliceMap f n l = mapM f (take n l).
Proof.
  revert n. induction l as [|x l IH]; intros [|n]; simpl; try reflexivity.
  rewrite IH. reflexivity.
Qed.

Lemma relativeIndex_nonneg (len limit : Z) :
  0 <= len -> 0 <= limit -> relativeIndex len limit = Z.min limit len.
Proof.
  intros Hlen Hlimit. unfold relativeIndex.
  destruct (Z.ltb_spec limit 0); [lia|reflexivity].
Qed.

(** [l.slice(0, limit)] keeps a prefix of [l]. *)
Lemma slice_from_start {A : Type} (l : list A) (limit : Z) :
  slice l 0 limit
  = take (Z.to_nat (relativeIndex (Z.of_nat (length l)) limit)) l.
Proof.
  unfold slice.
  assert (H0 : relativeIndex (Z.of_nat (length l)) 0 = 0).
  { rewrite relativeIndex_nonneg; lia. }
  rewrite H0. simpl. rewrite Z.sub_0_r. reflexivity.
Qed.

(** With a non-negative limit, the first [limit] elements. *)
Lemma slice_nonneg {A : Type} (l : list A) (limit : Z) :
  0 <= limit -> slice l 0 limit = take (Z.to_nat limit) l.
Proof.
  intros Hlimit. rewrite slice_from_start, relativeIndex_nonneg by lia.
  destruct (Z.le_gt_cases limit (Z.of_nat (length l))) as [Hle|Hgt].
  - rewrite Z.min_l by lia. reflexivity.
  - rewrite Z.min_r by lia. rewrite Nat2Z.id.
    rewrite !take_ge by lia. reflexivity.
Qed.

(** ** The facet-value tree *)

(** Induction on a facet-value tree, with the property known of every
    child. *)
Lemma FacetValue_ind (P : FacetValue.t -> Prop) :
  (forall name path count isRefined,
      P (FacetValue.make name path count isRefined None)) ->
  (forall name path count isRefined data,
      Forall P data ->
      P (FacetValue.make name path count isRefined (Some data))) ->
  forall v, P v.
Proof.
  intros Hleaf Hnode. fix IH 1.
  intros [name path count isRefined [data|]]; [|apply Hleaf].
  apply Hnode. induction data as [|v data IHdata]; constructor.
  - apply IH.
  - exact IHdata.
Qed.

Section ConnectorProperties.
Context {engine : Engine}.

Lemma getCurrentRefinement_returns (props : Props.t) (state : State)
  (attributes : list string) :
  Props.attributes props = Some attributes ->
  exists current, getCurrentRefinement props state = Ok current.
Proof.
  intros H. apply getId_attributes in H.
  rewrite (getCurrentRefinement_cases _ _ _ H). eauto.
Qed.

Lemma getValue_returns (path : string) (props : Props.t) (state : State)
  (attributes : list string) :
  Props.attributes props = Some attributes ->
  exists value, getValue path props state = Ok value.
Proof.
  intros H.
  destruct (getCurrentRefinement_returns props state _ H) as [current Hc].
  unfold getValue. rewrite Hc. simpl.
  destruct (decide (current = VNull)); eauto.
Qed.

(** With no current refinement the value of a node is its path. *)
Lemma getValue_unrefined (path : string) (props : Props.t) (state : State) :
  getCurrentRefinement props state = Ok VNull ->
  getValue path props state = Ok (VString path).
Proof. intros Hc. unfold getValue. rewrite Hc. reflexivity. Qed.

(** The callback as the source writes it: the children are
    [transformValue] of [v.data] with the same limit, and are absent when
    [v.data] is. *)
Lemma transformNode_unfold (limit : Z) (props : Props.t) (state : State)
  (v : FacetValue.t) :
  transformNode limit props state v =
    (value ← getValue (FacetValue.path v) props state;
     children ←
       match FacetValue.data v with
       | None => Ok None
       | Some data =>
         items ← transformValue data limit props state; Ok (Some items)
       end;
     Ok {| Item.label := FacetValue.name v;
           Item.value := value;
           Item.count := FacetValue.count v;
           Item.isRefined := FacetValue.isRefined v;
           Item.children := children |}).
Proof.
  destruct v as [name path count isRefined [data|]]; simpl; [|reflexivity].
  unfold transformValue. rewrite slice_from_start, sliceMap_mapM.
  reflexivity.
Qed.

(** [transformValue] as the source writes it: [slice] then [map]. *)
Lemma transformValue_unfold (value : list FacetValue.t) (limit : Z)
  (props : Props.t) (state : State) :
  transformValue value limit props state =
    mapM (fun v =>
            value ← getValue (FacetValue.path v) props state;
            children ←
              match FacetValue.data v with
              | None => Ok None
              | Some data =>
                items ← transformValue data limit props state;
                Ok (Some items)
              end;
            Ok {| Item.label := FacetValue.name v;
                  Item.value := value;
                  Item.count := FacetValue.count v;
                  Item.isRefined := FacetValue.isRefined v;
                  Item.children := children |})
         (slice value 0 limit).
Proof.
  unfold transformValue at 1. apply mapM_Result_ext.
  intros v. apply transformNode_unfold.
Qed.

(** ** The display tree *)

Lemma forallb_Forall_true {A : Type} (f : A -> bool) (l : list A) :
  Forall (fun x => f x = true) l -> forallb f l = true.
Proof.
  induction 1 as [|x l Hx _ IH]; simpl; [reflexivity|].
  rewrite Hx, IH. reflexivity.
Qed.

(** With attributes defined and a non-negative limit, the callback
    returns on every node, and no list of children in its result is
    longer than the limit. *)
Lemma transformNode_within (limit : Z) (props : Props.t) (state : State)
  (attributes : list string) :
  Props.attributes props = Some attributes ->
  0 <= limit ->
  forall v, exists item,
    transformNode limit props state v = Ok item
    /\ childrenWithin limit item = true.
Proof.
  intros Hattr Hlimit v.
  induction v as [name path count isRefined
                 |name path count isRefined data IH] using FacetValue_ind.
  - destruct (getValue_returns path props state _ Hattr) as [value Hv].
    simpl. rewrite Hv. simpl. eexists. split; reflexivity.
  - destruct (getValue_returns path props state _ Hattr) as [value Hv].
    rewrite transformNode_unfold. simpl. rewrite Hv. simpl.
    unfold transformValue. rewrite slice_nonneg by exact Hlimit.
    apply (Forall_take _ (Z.to_nat limit)) in IH.
    destruct (mapM_Ok_Forall _ _ _ IH) as (items & Hitems & Hwithin).
    rewrite Hitems. simpl. eexists. split; [reflexivity|]. simpl.
    apply andb_true_intro. split.
    + apply Z.leb_le. rewrite (mapM_Ok_length _ _ _ Hitems), length_take. lia.
    + by apply forallb_Forall_true.
Qed.

Lemma transformValue_within (value : list FacetValue.t) (limit : Z)
  (props : Props.t) (state : State) (attributes : list string) :
  Props.attributes props = Some attributes ->
  0 <= limit ->
  exists items,
    transformValue value limit props state = Ok items
    /\ length items = Nat.min (Z.to_nat limit) (length value)
    /\ siblingsWithin limit items = true.
Proof.
  intros Hattr Hlimit. unfold transformValue.
  rewrite slice_nonneg by exact Hlimit.
  destruct (mapM_Ok_Forall (transformNode limit props state)
              (fun item => childrenWithin limit item = true)
              (take (Z.to_nat limit) value)) as (items & Hitems & Hwithin).
  { apply Forall_forall. intros v _.
    exact (transformNode_within limit props state _ Hattr Hlimit v). }
  exists items. split; [exact Hitems|].
  assert (Hlen : length items = Nat.min (Z.to_nat limit) (length value)).
  { rewrite (mapM_Ok_length _ _ _ Hitems). apply length_take. }
  split; [exact Hlen|].
  unfold siblingsWithin. apply andb_true_intro. split.
  - apply Z.leb_le. lia.
  - by apply forallb_Forall_true.
Qed.

(** The children of the [i]-th item come from the data of the [i]-th
    node, through [transformValue] with the same limit. *)
Lemma transformValue_children (value : list FacetValue.t) (limit : Z)
  (props : Props.t) (state : State) (items : list Item.t)
  (i : nat) (v : FacetValue.t) (item : Item.t) :
  transformValue value limit props state = Ok items ->
  value !! i = Some v ->
  items !! i = Some item ->
  match FacetValue.data v with
  | None => Item.children item = None
  | Some data =>
    exists children,
      transformValue data limit props state = Ok children
      /\ Item.children item = Some children
  end.
Proof.
  intros Hitems Hv Hitem. unfold transformValue in Hitems.
  rewrite slice_from_start in Hitems.
  assert (Hi : (i < length items)%nat) by (eapply lookup_lt_Some; eauto).
  rewrite (mapM_Ok_length _ _ _ Hitems), length_take in Hi.
  assert (Hnode : transformNode limit props state v = Ok item).
  { eapply mapM_Ok_lookup; [exact Hitems| |exact Hitem].
    rewrite lookup_take_lt by lia. exact Hv. }
  rewrite transformNode_unfold in Hnode.
  destruct (getValue _ props state) as [value'|e]; simpl in Hnode;
    [|discriminate].
  destruct (FacetValue.data v) as [data|]; simpl in Hnode.
  - destruct (transformValue data limit props state) as [children|e];
      simpl in Hnode; [|discriminate].
    injection Hnode as <-. exists children. split; reflexivity.
  - injection Hnode as <-. reflexivity.
Qed.

(** C1, as the code has it: for a non-negative limit [transformValue]
    returns the items of the first [limit] nodes, and the recursive call
    on a node's data passes the same limit, so that the children of every
    node, at every depth, are cut to [limit] entries too; a node without
    data has no children. *)
Theorem transformValue_limit_at_every_level (value : list FacetValue.t)
  (limit : Z) (props : Props.t) (state : State) (attributes : list string) :
  Props.attributes props = Some attributes ->
  0 <= limit ->
  exists items,
    transformValue value limit props state = Ok items
    /\ length items = Nat.min (Z.to_nat limit) (length value)
    /\ siblingsWithin limit items = true
    /\ (forall i v item,
          value !! i = Some v -> items !! i = Some item ->
          match FacetValue.data v with
          | None => Item.children item = None
          | Some data =>
            exists children,
              transformValue data limit props state = Ok children
              /\ Item.children item = Some children
              /\ length children
                 = Nat.min (Z.to_nat limit) (length data)
          end).
Proof.
  intros Hattr Hlimit.
  destruct (transformValue_within value limit props state _ Hattr Hlimit)
    as (items & Hitems & Hlen & Hwithin).
  exists items. repeat split; try assumption.
  intros i v item Hv Hitem.
  pose proof (transformValue_children _ _ _ _ _ _ _ _ Hitems Hv Hitem) as Hc.
  destruct (FacetValue.data v) as [data|]; [|exact Hc].
  destruct Hc as (children & Hchildren & Heq).
  exists children. repeat split; try assumption.
  destruct (transformValue_within data limit props state _ Hattr Hlimit)
    as (children' & Hchildren' & Hlen' & _).
  congruence.
Qed.

(** With attributes defined, [transformValue] returns, whatever the
    limit. *)
Lemma transformNode_returns (limit : Z) (props : Props.t) (state : State)
  (attributes : list string) :
  Props.attributes props = Some attributes ->
  forall v, exists item, transformNode limit props state v = Ok item.
Proof.
  intros Hattr v.
  induction v as [name path count isRefined
                 |name path count isRefined data IH] using FacetValue_ind;
    destruct (getValue_returns path props state _ Hattr) as [value Hv];
    simpl; rewrite Hv; simpl; [eauto|].
  rewrite sliceMap_mapM.
  destruct (mapM_Ok_Forall (transformNode limit props state) (fun _ => True)
              (take (Z.to_nat (relativeIndex (Z.of_nat (length data)) limit))
                 data)) as (items & Hitems & _).
  { apply Forall_take. eapply Forall_impl; [exact IH|].
    intros v [item Hitem]. eauto. }
  rewrite Hitems. simpl. eauto.
Qed.

Lemma transformValue_returns (value : list FacetValue.t) (limit : Z)
  (props : Props.t) (state : State) (attributes : list string) :
  Props.attributes props = Some attributes ->
  exists items, transformValue value limit props state = Ok items.
Proof.
  intros Hattr. unfold transformValue.
  destruct (mapM_Ok_Forall (transformNode limit props state) (fun _ => True)
              (slice value 0 limit)) as (items & Hitems & _); [|eauto].
  apply Forall_forall. intros v _.
  destruct (transformNode_returns limit props state _ Hattr v) as [item H].
  eauto.
Qed.

(** ** The entry points *)

(** What [getProps] computes once the attributes are validated. *)
Lemma getProps_valid (props : Props.t) (state : State) (search : Search.t)
  (a : string) (rest : list string) :
  Props.attributes props = Some (a :: rest) ->
  getProps props state search =
    match Search.results search with
    | None => Ok None
    | Some results =>
      if getFacetByName results (VString a) is Some _ then
        items ←
          match FacetValues.data (getFacetValues results (VString a) sortBy)
          with
          | Some data =>
            transformValue data
              (if Props.showMore props then Props.limitMax props
               else Props.limitMin props) props state
          | None => Ok []
          end;
        currentRefinement ← getCurrentRefinement props state;
        Ok (Some {| ViewProps.items := items;
                    ViewProps.currentRefinement := currentRefinement |})
      else Ok None
    end.
Proof.
  intros Hattr. unfold getProps.
  rewrite (getId_attributes _ _ Hattr), Hattr. reflexivity.
Qed.

Lemma refine_valid (props : Props.t) (state : State) (nextRefinement : jsval)
  (a : string) (rest : list string) :
  Props.attributes props = Some (a :: rest) ->
  refine props state nextRefinement
  = Ok (<[a := jsOr nextRefinement (VString "")]> state).
Proof.
  intros Hattr. unfold refine.
  rewrite (getId_attributes _ _ Hattr), Hattr. reflexivity.
Qed.

(** What [getSearchParameters] computes once the attributes are
    validated and the engine has declared the facet. *)
Lemma getSearchParameters_declared (searchParameters : SearchParameters)
  (props : Props.t) (state : State) (a : string) (rest : list string)
  (current : jsval) (declared : SearchParameters) :
  Props.attributes props = Some (a :: rest) ->
  getCurrentRefinement props state = Ok current ->
  addHierarchicalFacet searchParameters
    {| HierarchicalFacet.name := VString a;
       HierarchicalFacet.attributes := Some (a :: rest);
       HierarchicalFacet.separator := Props.separator props;
       HierarchicalFacet.rootPath := Props.rootPath props;
       HierarchicalFacet.showParentLevel := Props.showParentLevel props |}
  = Ok declared ->
  getSearchParameters searchParameters props state =
    Ok (let searchParameters' :=
          setQueryParameters declared
            (Z.max (numOr (maxValuesPerFacet searchParameters) 0)
               (if Props.showMore props then Props.limitMax props
                else Props.limitMin props)) in
        if decide (current = VNull) then searchParameters'
        else toggleHierarchicalFacetRefinement searchParameters'
               (VString a) current).
Proof.
  intros Hattr Hcurrent Hdeclared. unfold getSearchParameters.
  rewrite (getId_attributes _ _ Hattr), Hattr. simpl.
  rewrite Hdeclared, Hcurrent. simpl.
  destruct (decide (current = VNull)); reflexivity.
Qed.

(** With a facet of the identifier's name already declared, the engine's
    refusal is what [getSearchParameters] throws. *)
Lemma getSearchParameters_duplicate (searchParameters : SearchParameters)
  (props : Props.t) (state : State) (a : string) (rest : list string) :
  Props.attributes props = Some (a :: rest) ->
  isHierarchicalFacet searchParameters (VString a) = true ->
  exists detail,
    getSearchParameters searchParameters props state
    = Throw (Error (duplicateFacet ++ detail)%string).
Proof.
  intros Hattr Hdeclared. unfold getSearchParameters.
  rewrite (getId_attributes _ _ Hattr), Hattr. simpl.
  destruct (addHierarchicalFacet_declared searchParameters
              {| HierarchicalFacet.name := VString a;
                 HierarchicalFacet.attributes := Some (a :: rest);
                 HierarchicalFacet.separator := Props.separator props;
                 HierarchicalFacet.rootPath := Props.rootPath props;
                 HierarchicalFacet.showParentLevel :=
                   Props.showParentLevel props |} Hdeclared)
    as [detail Hthrow].
  exists detail. rewrite Hthrow. reflexivity.
Qed.

(** With no facet of that name declared yet, [getSearchParameters]
    returns. *)
Lemma getSearchParameters_fresh (searchParameters : SearchParameters)
  (props : Props.t) (state : State) (a : string) (rest : list string) :
  Props.attributes props = Some (a :: rest) ->
  isHierarchicalFacet searchParameters (VString a) = false ->
  exists current declared,
    getCurrentRefinement props state = Ok current
    /\ addHierarchicalFacet searchParameters
         {| HierarchicalFacet.name := VString a;
            HierarchicalFacet.attributes := Some (a :: rest);
            HierarchicalFacet.separator := Props.separator props;
            HierarchicalFacet.rootPath := Props.rootPath props;
            HierarchicalFacet.showParentLevel := Props.showParentLevel props |}
       = Ok declared
    /\ getSearchParameters searchParameters props state =
         Ok (let searchParameters' :=
               setQueryParameters declared
                 (Z.max (numOr (maxValuesPerFacet searchParameters) 0)
                    (if Props.showMore props then Props.limitMax props
                     else Props.limitMin props)) in
             if decide (current = VNull) then searchParameters'
             else toggleHierarchicalFacetRefinement searchParameters'
                    (VString a) current).
Proof.
  intros Hattr Hfresh.
  destruct (getCurrentRefinement_returns props state _ Hattr)
    as [current Hcurrent].
  destruct (addHierarchicalFacet_fresh searchParameters
              {| HierarchicalFacet.name := VString a;
                 HierarchicalFacet.attributes := Some (a :: rest);
                 HierarchicalFacet.separator := Props.separator props;
                 HierarchicalFacet.rootPath := Props.rootPath props;
                 HierarchicalFacet.showParentLevel :=
                   Props.showParentLevel props |} Hfresh)
    as [declared Hdeclared].
  exists current, declared. split; [exact Hcurrent|].
  split; [exact Hdeclared|].
  exact (getSearchParameters_declared _ _ _ _ _ _ _ Hattr Hcurrent Hdeclared).
Qed.

(** C3, as the code has it: with the attribute list undefined or empty
    each of the four entry points throws the configuration error.  With a
    non-empty attribute list [getProps], [refine] and [getMetadata]
    return; [getSearchParameters] returns when the search parameters do
    not yet declare a hierarchical facet under the identifier, and
    otherwise throws the engine's error for a facet declared twice, which
    is not the configuration error. *)
Theorem entry_points_failures (props : Props.t) (state : State)
  (search : Search.t) (searchParameters : SearchParameters)
  (nextRefinement : jsval) :
  (Props.attributes props = None \/ Props.attributes props = Some [] ->
   getProps props state search = Throw ConfigurationError
   /\ refine props state nextRefinement = Throw ConfigurationError
   /\ getSearchParameters searchParameters props state
      = Throw ConfigurationError
   /\ getMetadata props state = Throw ConfigurationError)
  /\ (forall a rest, Props.attributes props = Some (a :: rest) ->
      (exists viewProps, getProps props state search = Ok viewProps)
      /\ (exists state', refine props state nextRefinement = Ok state')
      /\ (exists metadata, getMetadata props state = Ok metadata)
      /\ (isHierarchicalFacet searchParameters (VString a) = false ->
          exists searchParameters',
            getSearchParameters searchParameters props state
            = Ok searchParameters')
      /\ (isHierarchicalFacet searchParameters (VString a) = true ->
          exists detail,
            getSearchParameters searchParameters props state
            = Throw (Error (duplicateFacet ++ detail)%string)
            /\ Error (duplicateFacet ++ detail)%string
               <> ConfigurationError)).
Proof.
  split.
  - intros Hmissing. apply attributesMissing_true in Hmissing.
    unfold getProps, refine, getSearchParameters, getMetadata.
    rewrite Hmissing. repeat split; reflexivity.
  - intros a rest Hattr.
    destruct (getCurrentRefinement_returns props state _ Hattr)
      as [current Hcurrent].
    split.
    { rewrite (getProps_valid _ _ _ _ _ Hattr).
      destruct (Search.results search) as [results|]; [|eauto].
      destruct (getFacetByName results (VString a)); [|eauto].
      destruct (FacetValues.data _) as [data|].
      - destruct (transformValue_returns data
                    (if Props.showMore props then Props.limitMax props
                     else Props.limitMin props) props state _ Hattr)
          as [items Hitems].
        rewrite Hitems, Hcurrent. simpl. eauto.
      - rewrite Hcurrent. simpl. eauto. }
    split; [rewrite (refine_valid _ _ _ _ _ Hattr); eauto|].
    split.
    { unfold getMetadata.
      rewrite (getId_attributes _ _ Hattr), Hattr, Hcurrent. simpl. eauto. }
    split.
    + intros Hfresh.
      destruct (getSearchParameters_fresh searchParameters props state _ _
                  Hattr Hfresh) as (current' & declared & _ & _ & Hreturn).
      eauto.
    + intros Hdeclared.
      destruct (getSearchParameters_duplicate searchParameters props state
                  _ _ Hattr Hdeclared) as [detail Hthrow].
      exists detail. split; [exact Hthrow|]. discriminate.
Qed.

(** C4: [refine] with a non-empty string, then [getCurrentRefinement] on
    the state it returns, gives that string back; [refine] with [null]
    or [undefined] stores the empty string, and the current refinement
    of the state it returns is [null]. *)
Theorem refine_then_getCurrentRefinement (props : Props.t) (state : State)
  (a : string) (rest : list string) :
  Props.attributes props = Some (a :: rest) ->
  (forall s, s <> "" ->
     exists state',
       refine props state (VString s) = Ok state'
       /\ getCurrentRefinement props state' = Ok (VString s))
  /\ (forall nextRefinement,
        nextRefinement = VNull \/ nextRefinement = VUndefined ->
        exists state',
          refine props state nextRefinement = Ok state'
          /\ state' !! a = Some (VString "")
          /\ getCurrentRefinement props state' = Ok VNull).
Proof.
  intros Hattr.
  pose proof (getId_attributes _ _ Hattr) as Hid. simpl in Hid.
  split.
  - intros s Hs. eexists. split; [apply (refine_valid _ _ _ _ _ Hattr)|].
    rewrite (getCurrentRefinement_cases _ _ _ Hid).
    unfold getProp. simpl. rewrite lookup_insert_eq. simpl.
    destruct s; [contradiction|reflexivity].
  - intros nextRefinement Hnext. eexists.
    split; [apply (refine_valid _ _ _ _ _ Hattr)|].
    assert (Hor : jsOr nextRefinement (VString "") = VString "")
      by (destruct Hnext as [-> | ->]; reflexivity).
    rewrite Hor. split; [apply lookup_insert_eq|].
    rewrite (getCurrentRefinement_cases _ _ _ Hid).
    unfold getProp. simpl. rewrite lookup_insert_eq. reflexivity.
Qed.

(** C5: when the search parameters do not yet declare the widget's
    facet, so that the engine returns, the [maxValuesPerFacet] of the
    search parameters that [getSearchParameters] returns is at least the
    limit in force ([limitMax] with [showMore], else [limitMin]) and at
    least the [maxValuesPerFacet] the input had. *)
Theorem getSearchParameters_maxValuesPerFacet
  (searchParameters : SearchParameters) (props : Props.t) (state : State)
  (a : string) (rest : list string) :
  Props.attributes props = Some (a :: rest) ->
  isHierarchicalFacet searchParameters (VString a) = false ->
  exists searchParameters' m',
    getSearchParameters searchParameters props state = Ok searchParameters'
    /\ maxValuesPerFacet searchParameters' = Some m'
    /\ (if Props.showMore props then Props.limitMax props
        else Props.limitMin props) <= m'
    /\ (forall m, maxValuesPerFacet searchParameters = Some m -> m <= m').
Proof.
  intros Hattr Hfresh.
  destruct (getSearchParameters_fresh searchParameters props state _ _
              Hattr Hfresh) as (current & declared & _ & _ & Hreturn).
  set (limit := if Props.showMore props then Props.limitMax props
                else Props.limitMin props) in *.
  eexists. exists (Z.max (numOr (maxValuesPerFacet searchParameters) 0) limit).
  split; [exact Hreturn|].
  split.
  { simpl. destruct (decide (current = VNull)).
    - apply maxValuesPerFacet_set.
    - rewrite maxValuesPerFacet_toggle. apply maxValuesPerFacet_set. }
  split; [lia|].
  intros m Hm. rewrite Hm. simpl. destruct (Z.eqb_spec m 0); lia.
Qed.

(** C6: the metadata has no item when the current refinement is [null];
    otherwise it has one item, labelled with the first attribute, a colon,
    a space and the refinement, named after the first attribute, and whose
    function sets the widget's entry of any state to the empty string. *)
Theorem getMetadata_items (props : Props.t) (state : State)
  (a : string) (rest : list string) :
  Props.attributes props = Some (a :: rest) ->
  exists current metadata,
    getCurrentRefinement props state = Ok current
    /\ getMetadata props state = Ok metadata
    /\ (current = VNull \/ exists s, current = VString s)
    /\ (current = VNull -> Metadata.items metadata = [])
    /\ (forall s, current = VString s ->
        exists item,
          Metadata.items metadata = [item]
          /\ MetaItem.label item = (a ++ ": " ++ s)%string
          /\ MetaItem.attributeName item = VString a
          /\ MetaItem.currentRefinement item = VString s
          /\ forall nextState : State,
               MetaItem.value item nextState !! a = Some (VString "")
               /\ forall key, key <> a ->
                    MetaItem.value item nextState !! key = nextState !! key).
Proof.
  intros Hattr.
  destruct (getCurrentRefinement_returns props state _ Hattr)
    as [current Hcurrent].
  exists current. eexists. split; [exact Hcurrent|].
  split.
  { unfold getMetadata.
    rewrite (getId_attributes _ _ Hattr), Hattr, Hcurrent. reflexivity. }
  destruct (getCurrentRefinement_range _ _ _ Hcurrent)
    as [-> | (s & -> & Hs)].
  - split; [by left|]. split; [reflexivity|]. intros s [=].
  - split; [right; eauto|]. split; [intros [=]|].
    intros s' [= <-]. simpl.
    destruct s as [|c s]; [contradiction|]. simpl.
    eexists. split; [reflexivity|]. simpl.
    repeat split.
    + apply lookup_insert_eq.
    + intros key Hkey. unfold setProp. simpl.
      apply lookup_insert_ne. congruence.
Qed.

(** C7: with a non-empty attribute list [getProps] returns [null] when
    the results are absent or have no facet under the identifier;
    otherwise it returns the items of the facet's values (for the limit
    in force) and the current refinement. *)
Theorem getProps_null_without_facet (props : Props.t) (state : State)
  (search : Search.t) (a : string) (rest : list string) :
  Props.attributes props = Some (a :: rest) ->
  (Search.results search = None -> getProps props state search = Ok None)
  /\ (forall results,
        Search.results search = Some results ->
        getFacetByName results (VString a) = None ->
        getProps props state search = Ok None)
  /\ (forall results facet,
        Search.results search = Some results ->
        getFacetByName results (VString a) = Some facet ->
        exists items current,
          getProps props state search
          = Ok (Some {| ViewProps.items := items;
                        ViewProps.currentRefinement := current |})
          /\ getCurrentRefinement props state = Ok current
          /\ match FacetValues.data
                     (getFacetValues results (VString a) sortBy) with
             | Some data =>
               transformValue data
                 (if Props.showMore props then Props.limitMax props
                  else Props.limitMin props) props state = Ok items
             | None => items = []
             end).
Proof.
  intros Hattr. rewrite (getProps_valid _ _ _ _ _ Hattr).
  split; [intros ->; reflexivity|].
  split.
  - intros results -> ->. reflexivity.
  - intros results facet -> ->.
    destruct (getCurrentRefinement_returns props state _ Hattr)
      as [current Hcurrent].
    rewrite Hcurrent.
    destruct (FacetValues.data _) as [data|].
    + destruct (transformValue_returns data
                  (if Props.showMore props then Props.limitMax props
                   else Props.limitMin props) props state _ Hattr)
        as [items Hitems].
      rewrite Hitems. simpl. exists items, current. auto.
    + simpl. exists [], current. auto.
Qed.

(** C10: when the facet is present and the facet values carry no data,
    [getProps] does not return [null]: it returns no items, with the
    current refinement of the props and the state. *)
Theorem getProps_without_data (props : Props.t) (state : State)
  (search : Search.t) (a : string) (rest : list string)
  (results : SearchResults) (facet : Facet) :
  Props.attributes props = Some (a :: rest) ->
  Search.results search = Some results ->
  getFacetByName results (VString a) = Some facet ->
  FacetValues.data (getFacetValues results (VString a) sortBy) = None ->
  exists current,
    getCurrentRefinement props state = Ok current
    /\ getProps props state search
       = Ok (Some {| ViewProps.items := [];
                     ViewProps.currentRefinement := current |}).
Proof.
  intros Hattr Hresults Hfacet Hdata.
  destruct (getCurrentRefinement_returns props state _ Hattr)
    as [current Hcurrent].
  exists current. split; [exact Hcurrent|].
  rewrite (getProps_valid _ _ _ _ _ Hattr), Hresults, Hfacet, Hdata, Hcurrent.
  reflexivity.
Qed.

End ConnectorProperties.

(** ** Refining is a functional update *)

(** C8: [refine] returns a new object, at a reference that was not in
    use; in it the widget's entry is the next refinement (or the empty
    string) and every other key has the value it has in the input state;
    the input state, like every other object, is left as it was. *)
Theorem refine_functional_update (props : Props.t) (store : Store)
  (state : positive) (contents : State) (nextRefinement : jsval)
  (a : string) (rest : list string) :
  Props.attributes props = Some (a :: rest) ->
  store !! state = Some contents ->
  exists reference store' object,
    refineInStore props store state nextRefinement = Ok (reference, store')
    /\ store !! reference = None
    /\ store' !! reference = Some object
    /\ object !! a = Some (jsOr nextRefinement (VString ""))
    /\ (forall key, key <> a -> object !! key = contents !! key)
    /\ (forall r, r <> reference -> store' !! r = store !! r)
    /\ store' !! state = Some contents.
Proof.
  intros Hattr Hstate.
  assert (Hfresh : store !! fresh (dom store) = None)
    by (apply not_elem_of_dom, is_fresh).
  exists (fresh (dom store)). eexists. eexists.
  split.
  { unfold refineInStore.
    rewrite (refine_valid _ _ _ _ _ Hattr). reflexivity. }
  split; [exact Hfresh|].
  split; [apply lookup_insert_eq|].
  rewrite (lookup_total_correct _ _ _ Hstate).
  split; [apply lookup_insert_eq|].
  split; [intros key Hkey; by apply lookup_insert_ne|].
  split; [intros r Hr; by apply lookup_insert_ne|].
  rewrite lookup_insert_ne; [exact Hstate|].
  intros Heq. rewrite Heq in Hfresh. congruence.
Qed.

(** ** Evaluation on the example inputs *)

Lemma transformValue_limit_at_every_level_witness :
  Props.attributes categories = Some ["categories"]
  /\ 0 <= 1
  /\ exists items,
       transformValue (engine := FlatEngine.engine) [shoes] 1 categories ∅
       = Ok items
       /\ length items = 1%nat
       /\ siblingsWithin 1 items = true.
Proof.
  split; [reflexivity|]. split; [lia|].
  destruct (transformValue_limit_at_every_level
              (engine := FlatEngine.engine) [shoes] 1 categories ∅
              ["categories"]) as (items & Hitems & Hlen & Hwithin & _);
    [reflexivity|lia|].
  exists items. split; [exact Hitems|]. split; [exact Hlen|exact Hwithin].
Defined.

(** C1 as stated fails.  With limit 1, the two children of Shoes are cut
    to one; and with limit -1, [slice] drops the last of three nodes and
    two items are returned. *)
Lemma children_cut_to_limit :
  (exists item data children,
     transformValue (engine := FlatEngine.engine) [shoes] 1 categories ∅
     = Ok [item]
     /\ FacetValue.data shoes = Some data
     /\ Item.children item = Some children
     /\ length data = 2%nat
     /\ length children = 1%nat)
  /\ (exists items,
        transformValue (engine := FlatEngine.engine) threeLeaves (-1)
          categories ∅ = Ok items
        /\ length items = 2%nat).
Proof.
  split.
  - eexists. eexists. eexists.
    split; [vm_compute; reflexivity|].
    split; [reflexivity|]. split; [reflexivity|]. split; reflexivity.
  - eexists. split; [vm_compute; reflexivity|]. reflexivity.
Qed.

Lemma entry_points_failures_witness :
  Props.attributes (withAttributes categories (Some [])) = Some []
  /\ getProps (withAttributes categories (Some [])) ∅ shoeResults
     = Throw ConfigurationError
  /\ getMetadata (withAttributes categories (Some [])) ∅
     = Throw ConfigurationError
  /\ Props.attributes categories = Some ["categories"]
  /\ (exists viewProps, getProps categories ∅ shoeResults = Ok viewProps)
  /\ isHierarchicalFacet (Engine := FlatEngine.engine) fiftyValues
       (VString "categories") = false
  /\ exists searchParameters',
       getSearchParameters (engine := FlatEngine.engine) fiftyValues
         categories ∅ = Ok searchParameters'.
Proof.
  split; [reflexivity|].
  destruct (entry_points_failures (engine := FlatEngine.engine)
              (withAttributes categories (Some [])) ∅ shoeResults
              fiftyValues VNull) as [Hthrow _].
  destruct Hthrow as (HgetProps & _ & _ & HgetMetadata);
    [right; reflexivity|].
  split; [exact HgetProps|]. split; [exact HgetMetadata|].
  split; [reflexivity|].
  destruct (entry_points_failures (engine := FlatEngine.engine)
              categories ∅ shoeResults fiftyValues VNull) as [_ Hreturn].
  destruct (Hreturn "categories" [])
    as (HgetProps' & _ & _ & Hfresh & _); [reflexivity|].
  split; [exact HgetProps'|]. split; [reflexivity|].
  apply Hfresh. reflexivity.
Defined.

(** C3 as stated fails: on search parameters that already declare the
    facet [categories], [getSearchParameters] of a widget with a valid
    attribute list throws, and what it throws is the engine's error, not
    the configuration error. *)
Lemma getSearchParameters_other_failure :
  Props.attributes categories = Some ["categories"]
  /\ (exists detail,
        getSearchParameters (engine := FlatEngine.engine) categoriesDeclared
          categories ∅
        = Throw (Error (duplicateFacet ++ detail)%string))
  /\ getSearchParameters (engine := FlatEngine.engine) categoriesDeclared
       categories ∅
     <> Throw ConfigurationError.
Proof.
  split; [reflexivity|].
  split; [exists ": `categories`"; vm_compute; reflexivity|].
  vm_compute. discriminate.
Qed.

Lemma refine_then_getCurrentRefinement_witness :
  Props.attributes categories = Some ["categories"]
  /\ exists state',
       refine categories ∅ (VString "a > b") = Ok state'
       /\ getCurrentRefinement categories state' = Ok (VString "a > b").
Proof.
  split; [reflexivity|].
  destruct (refine_then_getCurrentRefinement categories ∅ "categories" [])
    as [Hset _]; [reflexivity|].
  apply Hset. discriminate.
Defined.

Lemma getSearchParameters_maxValuesPerFacet_witness :
  Props.attributes categories = Some ["categories"]
  /\ isHierarchicalFacet (Engine := FlatEngine.engine) fiftyValues
       (VString "categories") = false
  /\ exists searchParameters' m',
       getSearchParameters (engine := FlatEngine.engine) fiftyValues
         categories ∅ = Ok searchParameters'
       /\ FlatEngine.maxValues searchParameters' = Some m'
       /\ 10 <= m'
       /\ 50 <= m'.
Proof.
  split; [reflexivity|]. split; [reflexivity|].
  destruct (getSearchParameters_maxValuesPerFacet
              (engine := FlatEngine.engine) fiftyValues categories ∅
              "categories" []) as (sp' & m' & Hsp & Hm & Hlimit & Hprior);
    [reflexivity|reflexivity|].
  exists sp', m'. split; [exact Hsp|]. split; [exact Hm|].
  split; [exact Hlimit|]. apply Hprior. reflexivity.
Defined.

Lemma getMetadata_items_witness :
  Props.attributes categories = Some ["categories"]
  /\ exists metadata item,
       getMetadata categories {[ "categories" := VString "Shoes" ]}
       = Ok metadata
       /\ Metadata.items metadata = [item]
       /\ MetaItem.label item = "categories: Shoes".
Proof.
  split; [reflexivity|].
  destruct (getMetadata_items categories {[ "categories" := VString "Shoes" ]}
              "categories" [])
    as (current & metadata & Hcurrent & Hmetadata & _ & _ & Hitem);
    [reflexivity|].
  destruct (Hitem "Shoes") as (item & Hitems & Hlabel & _).
  { vm_compute in Hcurrent. congruence. }
  exists metadata, item. split; [exact Hmetadata|].
  split; [exact Hitems|exact Hlabel].
Defined.

Lemma getProps_null_without_facet_witness :
  Props.attributes categories = Some ["categories"]
  /\ Search.results noResults = None
  /\ getProps categories ∅ noResults = Ok None.
Proof.
  split; [reflexivity|]. split; [reflexivity|].
  destruct (getProps_null_without_facet (engine := FlatEngine.engine)
              categories ∅ noResults "categories" []) as [Hnull _];
    [reflexivity|].
  apply Hnull. reflexivity.
Defined.

Lemma getProps_without_data_witness :
  Props.attributes categories = Some ["categories"]
  /\ FacetValues.data
       (getFacetValues (Engine := FlatEngine.engine)
          {[ "categories" := {| FacetValues.data := None |} ]}
          (VString "categories") sortBy) = None
  /\ exists current,
       getProps categories ∅ resultsWithoutData
       = Ok (Some {| ViewProps.items := [];
                     ViewProps.currentRefinement := current |}).
Proof.
  split; [reflexivity|]. split; [reflexivity|].
  destruct (getProps_without_data (engine := FlatEngine.engine)
              categories ∅ resultsWithoutData "categories" []
              {[ "categories" := {| FacetValues.data := None |} ]}
              {| FacetValues.data := None |})
    as (current & _ & HgetProps); try reflexivity.
  exists current. exact HgetProps.
Defined.

Lemma refine_functional_update_witness :
  Props.attributes categories = Some ["categories"]
  /\ ({[ 1%positive := {[ "query" := VString "boots" ]} ]} : Store)
       !! 1%positive = Some {[ "query" := VString "boots" ]}
  /\ exists reference store' object,
       refineInStore categories
         {[ 1%positive := {[ "query" := VString "boots" ]} ]} 1%positive
         (VString "Shoes") = Ok (reference, store')
       /\ store' !! reference = Some object
       /\ object !! "query" = Some (VString "boots")
       /\ store' !! 1%positive = Some {[ "query" := VString "boots" ]}.
Proof.
  split; [reflexivity|]. split; [reflexivity|].
  destruct (refine_functional_update categories
              {[ 1%positive := {[ "query" := VString "boots" ]} ]} 1%positive
              {[ "query" := VString "boots" ]} (VString "Shoes")
              "categories" [])
    as (reference & store' & object & Hrefine & _ & Hobject & _ & Hframe
        & _ & Hstate); [reflexivity|reflexivity|].
  exists reference, store', object.
  split; [exact Hrefine|]. split; [exact Hobject|].
  split; [|exact Hstate].
  rewrite Hframe by discriminate. reflexivity.
Defined.

(** The scenario of the hierarchical menu with one category: the facet
    [categories] holds Shoes with its two children, nothing is refined,
    and [limitMin] is 10. *)
Example getProps_shoes :
  getProps categories ∅ shoeResults
  = Ok (Some
      {| ViewProps.items :=
           [ {| Item.label := "Shoes";
                Item.value := VString "Shoes";
                Item.count := 10;
                Item.isRefined := false;
                Item.children :=
                  Some [ {| Item.label := "Sneakers";
                            Item.value := VString "Shoes > Sneakers";
                            Item.count := 4;
                            Item.isRefined := false;
                            Item.children := None |};
                         {| Item.label := "Boots";
                            Item.value := VString "Shoes > Boots";
                            Item.count := 6;
                            Item.isRefined := false;
                            Item.children := None |} ] |} ];
         ViewProps.currentRefinement := VNull |}).
Proof. vm_compute. reflexivity. Qed.

(** With Shoes refined, the value of another node is its own path, and
    the value of Shoes itself is [undefined]: toggling Shoes twice leaves
    nothing selected. *)
Example getValue_refined :
  getValue (engine := FlatEngine.engine) "Hats" categories
    {[ "categories" := VString "Shoes" ]} = Ok (VString "Hats")
  /\ getValue (engine := FlatEngine.engine) "Shoes" categories
       {[ "categories" := VString "Shoes" ]} = Ok VUndefined.
Proof. split; vm_compute; reflexivity. Qed.

(** * Further properties of the connector *)

(** ** The state entry of the widget *)

(** The current refinement depends on the state through the widget's
    entry only. *)
Lemma getCurrentRefinement_agree (props : Props.t) (state1 state2 : State)
  (a : string) (rest : list string) :
  Props.attributes props = Some (a :: rest) ->
  state1 !! a = state2 !! a ->
  getCurrentRefinement props state1 = getCurrentRefinement props state2.
Proof.
  intros Hattr Hentry.
  pose proof (getId_attributes _ _ Hattr) as Hid. simpl in Hid.
  rewrite !(getCurrentRefinement_cases _ _ _ Hid).
  unfold getProp. simpl. rewrite Hentry. reflexivity.
Qed.

(** The current refinement that [refine] leaves behind. *)
Lemma getCurrentRefinement_insert (props : Props.t) (state : State)
  (a : string) (rest : list string) (entry : jsval) :
  Props.attributes props = Some (a :: rest) ->
  getCurrentRefinement props (<[a := jsOr entry (VString "")]> state)
  = Ok (if truthy entry then entry else VNull).
Proof.
  intros Hattr.
  pose proof (getId_attributes _ _ Hattr) as Hid. simpl in Hid.
  rewrite (getCurrentRefinement_cases _ _ _ Hid).
  unfold getProp. simpl. rewrite lookup_insert_eq. simpl.
  destruct entry as [| |[|c s]]; reflexivity.
Qed.

(** X1: the current refinement of a widget is [null] or a non-empty
    string: never [undefined], never the empty string. *)
Theorem getCurrentRefinement_never_empty (props : Props.t) (state : State)
  (attributes : list string) :
  Props.attributes props = Some attributes ->
  exists current,
    getCurrentRefinement props state = Ok current
    /\ current <> VUndefined
    /\ current <> VString "".
Proof.
  intros Hattr.
  destruct (getCurrentRefinement_returns props state _ Hattr)
    as [current Hcurrent].
  exists current. split; [exact Hcurrent|].
  destruct (getCurrentRefinement_range _ _ _ Hcurrent)
    as [-> | (s & -> & Hs)].
  - split; discriminate.
  - split; [discriminate|]. intros [= ->]. contradiction.
Qed.

(** X2: refining one widget leaves the current refinement of a widget
    with another first attribute as it was. *)
Theorem refine_other_widget (props1 props2 : Props.t) (state : State)
  (nextRefinement : jsval) (a1 a2 : string) (rest1 rest2 : list string) :
  Props.attributes props1 = Some (a1 :: rest1) ->
  Props.attributes props2 = Some (a2 :: rest2) ->
  a1 <> a2 ->
  exists state',
    refine props1 state nextRefinement = Ok state'
    /\ state' !! a2 = state !! a2
    /\ getCurrentRefinement props2 state'
       = getCurrentRefinement props2 state.
Proof.
  intros Hattr1 Hattr2 Hne. eexists.
  split; [apply (refine_valid _ _ _ _ _ Hattr1)|].
  assert (Hentry : <[a1 := jsOr nextRefinement (VString "")]> state !! a2
                   = state !! a2) by (by apply lookup_insert_ne).
  split; [exact Hentry|].
  exact (getCurrentRefinement_agree _ _ _ _ _ Hattr2 Hentry).
Qed.

(** X3: the last [refine] wins: refining twice gives the state that the
    second refinement alone gives. *)
Theorem refine_overwrites (props : Props.t) (state : State)
  (earlier later : jsval) (a : string) (rest : list string) :
  Props.attributes props = Some (a :: rest) ->
  exists state1 state2,
    refine props state earlier = Ok state1
    /\ refine props state1 later = Ok state2
    /\ refine props state later = Ok state2.
Proof.
  intros Hattr. eexists. eexists.
  split; [apply (refine_valid _ _ _ _ _ Hattr)|].
  split; [apply (refine_valid _ _ _ _ _ Hattr)|].
  rewrite (refine_valid _ _ _ _ _ Hattr), insert_insert_eq. reflexivity.
Qed.

(** X4: after [refine], the current refinement is the next refinement
    when that is a non-empty string, and [null] when it is [undefined],
    [null] or the empty string, whatever the state was and whatever the
    default refinement is. *)
Theorem refine_sets_current (props : Props.t) (state : State)
  (nextRefinement : jsval) (a : string) (rest : list string) :
  Props.attributes props = Some (a :: rest) ->
  exists state',
    refine props state nextRefinement = Ok state'
    /\ getCurrentRefinement props state'
       = Ok (if truthy nextRefinement then nextRefinement else VNull).
Proof.
  intros Hattr. eexists.
  split; [apply (refine_valid _ _ _ _ _ Hattr)|].
  apply (getCurrentRefinement_insert _ _ _ _ _ Hattr).
Qed.

(** X5: the function of a metadata item does to a state what [refine]
    with [null] does, and the state it returns has no metadata item. *)
Theorem getMetadata_value_clears (props : Props.t) (state : State)
  (metadata : Metadata.t) (item : MetaItem.t) (nextState : State)
  (a : string) (rest : list string) :
  Props.attributes props = Some (a :: rest) ->
  getMetadata props state = Ok metadata ->
  item ∈ Metadata.items metadata ->
  refine props nextState VNull = Ok (MetaItem.value item nextState)
  /\ getCurrentRefinement props (MetaItem.value item nextState) = Ok VNull
  /\ exists metadata',
       getMetadata props (MetaItem.value item nextState) = Ok metadata'
       /\ Metadata.items metadata' = [].
Proof.
  intros Hattr Hmetadata Hitem.
  pose proof (getId_attributes _ _ Hattr) as Hid. simpl in Hid.
  assert (Hvalue : MetaItem.value item nextState
                   = <[a := VString ""]> nextState).
  { unfold getMetadata in Hmetadata. rewrite Hid, Hattr in Hmetadata.
    simpl in Hmetadata.
    destruct (getCurrentRefinement props state) as [current|e];
      simpl in Hmetadata; [|discriminate].
    injection Hmetadata as <-. simpl in Hitem.
    destruct (truthy current); simpl in Hitem.
    - apply list_elem_of_singleton in Hitem. subst item. reflexivity.
    - by apply elem_of_nil in Hitem. }
  assert (Hcleared : getCurrentRefinement props (<[a := VString ""]> nextState)
                     = Ok VNull)
    by exact (getCurrentRefinement_insert _ _ _ _ VNull Hattr).
  rewrite Hvalue.
  split; [exact (refine_valid _ _ VNull _ _ Hattr)|].
  split; [exact Hcleared|].
  eexists. split.
  - unfold getMetadata. rewrite Hid, Hattr, Hcleared. reflexivity.
  - reflexivity.
Qed.

(** ** More on arrays and callbacks *)

Lemma mapM_Ok_lookup_r {A B : Type} (f : A -> Result B) (l : list A)
  (k : list B) (i : nat) (y : B) :
  mapM f l = Ok k -> k !! i = Some y ->
  exists x, l !! i = Some x /\ f x = Ok y.
Proof.
  intros H Hy. apply mapM_Ok in H.
  destruct (Forall2_lookup_r _ _ _ _ _ H Hy) as (x & Hx & Hfx). eauto.
Qed.

Lemma mapM_Ok_map {A B : Type} (f : A -> Result B) (g : A -> B)
  (l : list A) :
  Forall (fun x => f x = Ok (g x)) l -> mapM f l = Ok (map g l).
Proof.
  induction 1 as [|x l Hx _ IH]; simpl; [reflexivity|].
  rewrite Hx. simpl. rewrite IH. reflexivity.
Qed.

Lemma sliceMap_ext_Forall {A B : Type} (f g : A -> Result B) (n : nat)
  (l : list A) :
  Forall (fun x => f x = g x) l -> sliceMap f n l = sliceMap g n l.
Proof.
  intros H. revert n. induction H as [|x l Hx _ IH]; intros [|n]; simpl;
    try reflexivity.
  rewrite Hx, IH. reflexivity.
Qed.

Lemma forallb_true_Forall {A : Type} (f : A -> bool) (l : list A) :
  forallb f l = true -> Forall (fun x => f x = true) l.
Proof.
  induction l as [|x l IH]; simpl; intros H; constructor;
    apply andb_prop in H; destruct H; auto.
Qed.

Lemma relativeIndex_negative (len limit : Z) :
  limit < 0 -> relativeIndex len limit = Z.max (len + limit) 0.
Proof.
  intros H. unfold relativeIndex.
  destruct (Z.ltb_spec limit 0); [reflexivity|lia].
Qed.

Lemma numOr_default (o : option Z) : numOr o 0 = default 0 o.
Proof.
  destruct o as [m|]; simpl; [|reflexivity].
  destruct (Z.eqb_spec m 0); congruence.
Qed.

Section MoreConnectorProperties.
Context {engine : Engine}.

(** ** The display tree, node by node *)

Lemma getValue_agree (path : string) (props : Props.t)
  (state1 state2 : State) :
  getCurrentRefinement props state1 = getCurrentRefinement props state2 ->
  getValue path props state1 = getValue path props state2.
Proof. intros H. unfold getValue. rewrite H. reflexivity. Qed.

Lemma transformNode_agree (limit : Z) (props : Props.t)
  (state1 state2 : State) :
  getCurrentRefinement props state1 = getCurrentRefinement props state2 ->
  forall v,
    transformNode limit props state1 v = transformNode limit props state2 v.
Proof.
  intros H v.
  induction v as [name path count isRefined
                 |name path count isRefined data IH] using FacetValue_ind;
    simpl; rewrite (getValue_agree path _ _ _ H); [reflexivity|].
  rewrite (sliceMap_ext_Forall _ _ _ _ IH). reflexivity.
Qed.

Lemma transformValue_agree (value : list FacetValue.t) (limit : Z)
  (props : Props.t) (state1 state2 : State) :
  getCurrentRefinement props state1 = getCurrentRefinement props state2 ->
  transformValue value limit props state1
  = transformValue value limit props state2.
Proof.
  intros H. unfold transformValue. apply mapM_Result_ext.
  apply transformNode_agree, H.
Qed.

(** When no list of children is longer than the limit, the callback
    cuts nothing. *)
Lemma transformNode_wide (limit : Z) (props : Props.t) (state : State)
  (valueOf : string -> jsval) :
  (forall path, getValue path props state = Ok (valueOf path)) ->
  forall v,
    dataWithin limit v = true ->
    transformNode limit props state v = Ok (displayTree valueOf v).
Proof.
  intros Hvalue v.
  induction v as [name path count isRefined
                 |name path count isRefined data IH] using FacetValue_ind;
    intros Hwithin; simpl; rewrite Hvalue; simpl; [reflexivity|].
  simpl in Hwithin. apply andb_prop in Hwithin.
  destruct Hwithin as [Hlen Hdata]. apply Z.leb_le in Hlen.
  apply forallb_true_Forall in Hdata.
  rewrite sliceMap_mapM, relativeIndex_nonneg, Z.min_r, Nat2Z.id by lia.
  rewrite take_ge by lia.
  rewrite (mapM_Ok_map _ (displayTree valueOf)); [reflexivity|].
  apply Forall_forall. intros v Hv.
  rewrite Forall_forall in IH. rewrite Forall_forall in Hdata. auto.
Qed.

Lemma transformValue_wide_with (value : list FacetValue.t) (limit : Z)
  (props : Props.t) (state : State) (valueOf : string -> jsval) :
  (forall path, getValue path props state = Ok (valueOf path)) ->
  valuesWithin limit value = true ->
  transformValue value limit props state
  = Ok (map (displayTree valueOf) value).
Proof.
  intros Hvalue Hwithin. unfold valuesWithin in Hwithin.
  apply andb_prop in Hwithin. destruct Hwithin as [Hlen Hnodes].
  apply Z.leb_le in Hlen. apply forallb_true_Forall in Hnodes.
  unfold transformValue. rewrite slice_nonneg by lia.
  rewrite take_ge by lia. apply mapM_Ok_map.
  eapply Forall_impl; [exact Hnodes|].
  intros v Hv. by apply transformNode_wide.
Qed.

(** X6: [transformValue] keeps the order of the nodes and copies their
    fields: the [i]-th item has the name, count and [isRefined] of the
    [i]-th node, and its value is what [getValue] returns for that node's
    path. *)
Theorem transformValue_keeps_fields (value : list FacetValue.t) (limit : Z)
  (props : Props.t) (state : State) (attributes : list string) :
  Props.attributes props = Some attributes ->
  exists items,
    transformValue value limit props state = Ok items
    /\ (length items <= length value)%nat
    /\ forall i item,
         items !! i = Some item ->
         exists v,
           value !! i = Some v
           /\ Item.label item = FacetValue.name v
           /\ Item.count item = FacetValue.count v
           /\ Item.isRefined item = FacetValue.isRefined v
           /\ getValue (FacetValue.path v) props state
              = Ok (Item.value item).
Proof.
  intros Hattr.
  destruct (transformValue_returns value limit props state _ Hattr)
    as [items Hitems].
  exists items. split; [exact Hitems|].
  unfold transformValue in Hitems. rewrite slice_from_start in Hitems.
  split.
  { rewrite (mapM_Ok_length _ _ _ Hitems), length_take. lia. }
  intros i item Hitem.
  destruct (mapM_Ok_lookup_r _ _ _ _ _ Hitems Hitem) as (v & Hv & Hnode).
  apply lookup_take_Some in Hv. destruct Hv as [Hv _].
  exists v. split; [exact Hv|].
  rewrite transformNode_unfold in Hnode.
  destruct (getValue (FacetValue.path v) props state) as [value'|e];
    simpl in Hnode; [|discriminate].
  destruct (match FacetValue.data v with
            | Some data =>
              items0 ← transformValue data limit props state;
              Ok (Some items0)
            | None => Ok None
            end) as [children|e]; simpl in Hnode; [|discriminate].
  injection Hnode as <-. simpl. auto.
Qed.

(** X7: when neither the top level nor any list of children is longer
    than the limit, [transformValue] cuts nothing: the display tree is
    the facet-value tree node for node, each value being what [getValue]
    returns for the node's path. *)
Theorem transformValue_wide (value : list FacetValue.t) (limit : Z)
  (props : Props.t) (state : State) (attributes : list string) :
  Props.attributes props = Some attributes ->
  valuesWithin limit value = true ->
  exists valueOf,
    (forall path, getValue path props state = Ok (valueOf path))
    /\ transformValue value limit props state
       = Ok (map (displayTree valueOf) value).
Proof.
  intros Hattr Hwithin.
  exists (fun path =>
            match getValue path props state with
            | Ok value' => value'
            | Throw _ => VUndefined
            end).
  assert (Hvalue : forall path,
             getValue path props state
             = Ok match getValue path props state with
                  | Ok value' => value'
                  | Throw _ => VUndefined
                  end).
  { intros path.
    destruct (getValue_returns path props state _ Hattr) as [value' Hv].
    rewrite Hv. reflexivity. }
  split; [exact Hvalue|].
  by apply transformValue_wide_with.
Qed.

(** X8: with no current refinement and a limit that cuts nothing, the
    display tree is the facet-value tree with each node's path as its
    value. *)
Theorem transformValue_unrefined (value : list FacetValue.t) (limit : Z)
  (props : Props.t) (state : State) :
  getCurrentRefinement props state = Ok VNull ->
  valuesWithin limit value = true ->
  transformValue value limit props state
  = Ok (map (displayTree VString) value).
Proof.
  intros Hcurrent Hwithin. apply transformValue_wide_with; [|exact Hwithin].
  intros path. by apply getValue_unrefined.
Qed.

(** X9: a negative limit counts from the end, as [slice] does: the
    last [-limit] nodes are dropped, and nothing is left when there are
    no more than that. *)
Theorem transformValue_negative_limit (value : list FacetValue.t)
  (limit : Z) (props : Props.t) (state : State) (attributes : list string) :
  Props.attributes props = Some attributes ->
  limit < 0 ->
  exists items,
    transformValue value limit props state = Ok items
    /\ Z.of_nat (length items)
       = Z.max (Z.of_nat (length value) + limit) 0.
Proof.
  intros Hattr Hlimit.
  destruct (transformValue_returns value limit props state _ Hattr)
    as [items Hitems].
  exists items. split; [exact Hitems|].
  unfold transformValue in Hitems. rewrite slice_from_start in Hitems.
  rewrite (mapM_Ok_length _ _ _ Hitems), length_take.
  rewrite relativeIndex_negative by exact Hlimit. lia.
Qed.

(** ** The helpers do not validate the attributes *)

(** X10: [getCurrentRefinement], [getValue] and [transformValue] do not
    check the attributes.  With [attributes] undefined the first two throw
    a [TypeError], not the configuration error; [transformValue] throws it
    as soon as it keeps one node, and returns the empty array when given
    none. *)
Theorem helpers_throw_without_attributes (props : Props.t) (state : State) :
  Props.attributes props = None ->
  exists message,
    getCurrentRefinement props state = Throw (TypeError message)
    /\ (forall path, getValue path props state = Throw (TypeError message))
    /\ (forall limit, transformValue [] limit props state = Ok [])
    /\ (forall v value limit,
          1 <= limit ->
          transformValue (v :: value) limit props state
          = Throw (TypeError message)).
Proof.
  intros Hattr. exists "Cannot read property '0' of undefined".
  assert (Hcurrent : getCurrentRefinement props state
            = Throw (TypeError "Cannot read property '0' of undefined")).
  { unfold getCurrentRefinement, getId. rewrite Hattr. reflexivity. }
  split; [exact Hcurrent|].
  assert (Hvalue : forall path,
             getValue path props state
             = Throw (TypeError "Cannot read property '0' of undefined")).
  { intros path. unfold getValue. rewrite Hcurrent. reflexivity. }
  split; [exact Hvalue|].
  split.
  { intros limit. unfold transformValue.
    rewrite slice_from_start, take_nil. reflexivity. }
  intros v value limit Hlimit. unfold transformValue.
  rewrite slice_nonneg by lia.
  destruct (Z.to_nat limit) as [|n] eqn:Hn; [lia|]. simpl.
  destruct v as [name path count isRefined data]. simpl.
  rewrite Hvalue. reflexivity.
Qed.

(** X11: with an empty attribute list the identifier is [undefined], so
    [getCurrentRefinement] reads the state entry named ["undefined"]. *)
Theorem getCurrentRefinement_empty_attributes (props : Props.t)
  (state : State) :
  Props.attributes props = Some [] ->
  getId props = Ok VUndefined
  /\ (forall s, s <> "" ->
        state !! "undefined" = Some (VString s) ->
        getCurrentRefinement props state = Ok (VString s))
  /\ (state !! "undefined" = None ->
      truthy (Props.defaultRefinement props) = false ->
      getCurrentRefinement props state = Ok VNull).
Proof.
  intros Hattr.
  pose proof (getId_attributes _ _ Hattr) as Hid. simpl in Hid.
  split; [exact Hid|].
  rewrite (getCurrentRefinement_cases _ _ _ Hid). unfold getProp. simpl.
  split.
  - intros s Hs ->. simpl. destruct s; [contradiction|reflexivity].
  - intros -> ->. reflexivity.
Qed.

(** ** The search parameters *)

Lemma getSearchParameters_maxValues (searchParameters : SearchParameters)
  (props : Props.t) (state : State) (a : string) (rest : list string) :
  Props.attributes props = Some (a :: rest) ->
  isHierarchicalFacet searchParameters (VString a) = false ->
  exists searchParameters',
    getSearchParameters searchParameters props state = Ok searchParameters'
    /\ maxValuesPerFacet searchParameters'
       = Some (Z.max (default 0 (maxValuesPerFacet searchParameters))
                 (if Props.showMore props then Props.limitMax props
                  else Props.limitMin props))
    /\ (forall name,
          isHierarchicalFacet searchParameters' name
          = isHierarchicalFacet searchParameters name
            || bool_decide (VString a = name)).
Proof.
  intros Hattr Hfresh.
  destruct (getSearchParameters_fresh searchParameters props state _ _
              Hattr Hfresh) as (current & declared & _ & Hdeclared & Hreturn).
  eexists. split; [exact Hreturn|]. simpl.
  rewrite numOr_default.
  destruct (decide (current = VNull)).
  - split; [apply maxValuesPerFacet_set|].
    intros name. rewrite isHierarchicalFacet_set.
    apply (isHierarchicalFacet_add _ _ _ _ Hdeclared).
  - split; [rewrite maxValuesPerFacet_toggle; apply maxValuesPerFacet_set|].
    intros name. rewrite isHierarchicalFacet_toggle, isHierarchicalFacet_set.
    apply (isHierarchicalFacet_add _ _ _ _ Hdeclared).
Qed.

(** X12: when the search parameters do not yet declare the widget's
    facet, [getSearchParameters] sets [maxValuesPerFacet] to the larger
    of the limit in force and the input's value (0 when the input has
    none); an input value that already reaches the limit is kept as it
    is. *)
Theorem getSearchParameters_maxValuesPerFacet_exact
  (searchParameters : SearchParameters) (props : Props.t) (state : State)
  (a : string) (rest : list string) :
  Props.attributes props = Some (a :: rest) ->
  isHierarchicalFacet searchParameters (VString a) = false ->
  exists searchParameters',
    getSearchParameters searchParameters props state = Ok searchParameters'
    /\ maxValuesPerFacet searchParameters'
       = Some (Z.max (default 0 (maxValuesPerFacet searchParameters))
                 (if Props.showMore props then Props.limitMax props
                  else Props.limitMin props))
    /\ (forall m,
          maxValuesPerFacet searchParameters = Some m ->
          (if Props.showMore props then Props.limitMax props
           else Props.limitMin props) <= m ->
          maxValuesPerFacet searchParameters' = Some m).
Proof.
  intros Hattr Hfresh.
  destruct (getSearchParameters_maxValues searchParameters props state _ _
              Hattr Hfresh) as (searchParameters' & Hreturn & Hmax & _).
  exists searchParameters'. split; [exact Hreturn|]. split; [exact Hmax|].
  intros m Hm Hlimit. rewrite Hmax, Hm. simpl. f_equal. lia.
Qed.

(** X13: when search parameters that declare neither facet go through
    two widgets with different first attributes, the engine returns in
    either order, and the resulting [maxValuesPerFacet] reaches the limit
    of each widget and is the same in either order. *)
Theorem getSearchParameters_two_widgets (searchParameters : SearchParameters)
  (props1 props2 : Props.t) (state : State)
  (a1 a2 : string) (rest1 rest2 : list string) :
  Props.attributes props1 = Some (a1 :: rest1) ->
  Props.attributes props2 = Some (a2 :: rest2) ->
  a1 <> a2 ->
  isHierarchicalFacet searchParameters (VString a1) = false ->
  isHierarchicalFacet searchParameters (VString a2) = false ->
  exists after1 after12 after2 after21 m,
    getSearchParameters searchParameters props1 state = Ok after1
    /\ getSearchParameters after1 props2 state = Ok after12
    /\ getSearchParameters searchParameters props2 state = Ok after2
    /\ getSearchParameters after2 props1 state = Ok after21
    /\ maxValuesPerFacet after12 = Some m
    /\ maxValuesPerFacet after21 = Some m
    /\ (if Props.showMore props1 then Props.limitMax props1
        else Props.limitMin props1) <= m
    /\ (if Props.showMore props2 then Props.limitMax props2
        else Props.limitMin props2) <= m.
Proof.
  intros Hattr1 Hattr2 Hne Hfresh1 Hfresh2.
  destruct (getSearchParameters_maxValues searchParameters props1 state _ _
              Hattr1 Hfresh1) as (after1 & Hafter1 & Hmax1 & Hnames1).
  assert (Hfresh12 : isHierarchicalFacet after1 (VString a2) = false).
  { rewrite Hnames1, Hfresh2. simpl.
    apply bool_decide_eq_false. congruence. }
  destruct (getSearchParameters_maxValues after1 props2 state _ _ Hattr2
              Hfresh12) as (after12 & Hafter12 & Hmax12 & _).
  destruct (getSearchParameters_maxValues searchParameters props2 state _ _
              Hattr2 Hfresh2) as (after2 & Hafter2 & Hmax2 & Hnames2).
  assert (Hfresh21 : isHierarchicalFacet after2 (VString a1) = false).
  { rewrite Hnames2, Hfresh1. simpl.
    apply bool_decide_eq_false. congruence. }
  destruct (getSearchParameters_maxValues after2 props1 state _ _ Hattr1
              Hfresh21) as (after21 & Hafter21 & Hmax21 & _).
  rewrite Hmax1 in Hmax12. rewrite Hmax2 in Hmax21.
  simpl in Hmax12, Hmax21.
  exists after1, after12, after2, after21. eexists.
  split; [exact Hafter1|]. split; [exact Hafter12|].
  split; [exact Hafter2|]. split; [exact Hafter21|].
  split; [exact Hmax12|].
  split; [rewrite Hmax21; f_equal; lia|].
  split; lia.
Qed.

(** ** The view props *)

(** X14: when the facet is present and the limit in force is not
    negative, [getProps] returns at most that many items, and no item,
    at any depth, has more children than that. *)
Theorem getProps_at_most_limit (props : Props.t) (state : State)
  (search : Search.t) (a : string) (rest : list string)
  (results : SearchResults) (facet : Facet) :
  Props.attributes props = Some (a :: rest) ->
  Search.results search = Some results ->
  getFacetByName results (VString a) = Some facet ->
  0 <= (if Props.showMore props then Props.limitMax props
        else Props.limitMin props) ->
  exists viewProps,
    getProps props state search = Ok (Some viewProps)
    /\ Z.of_nat (length (ViewProps.items viewProps))
       <= (if Props.showMore props then Props.limitMax props
           else Props.limitMin props)
    /\ siblingsWithin
         (if Props.showMore props then Props.limitMax props
          else Props.limitMin props) (ViewProps.items viewProps) = true.
Proof.
  intros Hattr Hresults Hfacet Hlimit.
  destruct (getCurrentRefinement_returns props state _ Hattr)
    as [current Hcurrent].
  rewrite (getProps_valid _ _ _ _ _ Hattr), Hresults, Hfacet, Hcurrent.
  destruct (FacetValues.data _) as [data|].
  - destruct (transformValue_within data _ props state _ Hattr Hlimit)
      as (items & Hitems & Hlen & Hwithin).
    rewrite Hitems. simpl. eexists. split; [reflexivity|]. simpl.
    split; [lia|exact Hwithin].
  - simpl. eexists. split; [reflexivity|]. simpl. split; [lia|].
    unfold siblingsWithin. simpl. rewrite andb_true_r. by apply Z.leb_le.
Qed.

(** X15: the entry points read the state through the widget's own entry
    only: on two states that agree on it, [getProps],
    [getSearchParameters] and [getMetadata] return the same. *)
Theorem entry_points_read_own_entry (props : Props.t)
  (state1 state2 : State) (search : Search.t)
  (searchParameters : SearchParameters) (a : string) (rest : list string) :
  Props.attributes props = Some (a :: rest) ->
  state1 !! a = state2 !! a ->
  getProps props state1 search = getProps props state2 search
  /\ getSearchParameters searchParameters props state1
     = getSearchParameters searchParameters props state2
  /\ getMetadata props state1 = getMetadata props state2.
Proof.
  intros Hattr Hentry.
  pose proof (getCurrentRefinement_agree _ _ _ _ _ Hattr Hentry) as Hcurrent.
  repeat split.
  - rewrite !(getProps_valid _ _ _ _ _ Hattr), Hcurrent.
    destruct (Search.results search) as [results|]; [|reflexivity].
    destruct (getFacetByName results (VString a)); [|reflexivity].
    destruct (FacetValues.data _) as [data|]; [|reflexivity].
    rewrite (transformValue_agree _ _ _ _ _ Hcurrent). reflexivity.
  - unfold getSearchParameters. rewrite Hcurrent. reflexivity.
  - unfold getMetadata. rewrite Hcurrent. reflexivity.
Qed.

End MoreConnectorProperties.

Section DefaultRefinement.
Context {engine : Engine}.

(** X16: a default refinement counts as a refinement.  With no state
    entry and a non-empty default, [getMetadata] lists the default as the
    one item, under the identifier; and, on search parameters that do not
    yet declare the facet, [getSearchParameters] toggles the default in
    the engine after declaring the facet and setting
    [maxValuesPerFacet]. *)
Theorem default_refinement_applies (props : Props.t) (state : State)
  (searchParameters : SearchParameters) (a : string) (rest : list string)
  (s : string) :
  Props.attributes props = Some (a :: rest) ->
  state !! a = None ->
  Props.defaultRefinement props = VString s ->
  s <> "" ->
  isHierarchicalFacet searchParameters (VString a) = false ->
  (exists metadata item,
     getMetadata props state = Ok metadata
     /\ Metadata.id metadata = VString a
     /\ Metadata.items metadata = [item]
     /\ MetaItem.label item = (a ++ ": " ++ s)%string
     /\ MetaItem.currentRefinement item = VString s)
  /\ (exists declared,
        addHierarchicalFacet searchParameters
          {| HierarchicalFacet.name := VString a;
             HierarchicalFacet.attributes := Some (a :: rest);
             HierarchicalFacet.separator := Props.separator props;
             HierarchicalFacet.rootPath := Props.rootPath props;
             HierarchicalFacet.showParentLevel :=
               Props.showParentLevel props |} = Ok declared
        /\ getSearchParameters searchParameters props state
           = Ok (toggleHierarchicalFacetRefinement
                   (setQueryParameters declared
                      (Z.max (default 0 (maxValuesPerFacet searchParameters))
                         (if Props.showMore props then Props.limitMax props
                          else Props.limitMin props)))
                   (VString a) (VString s))).
Proof.
  intros Hattr Hentry Hdefault Hs Hfresh.
  pose proof (getId_attributes _ _ Hattr) as Hid. simpl in Hid.
  assert (Hcurrent : getCurrentRefinement props state = Ok (VString s)).
  { rewrite (getCurrentRefinement_cases _ _ _ Hid). unfold getProp. simpl.
    rewrite Hentry, Hdefault. simpl.
    destruct s; [contradiction|reflexivity]. }
  split.
  - unfold getMetadata. rewrite Hid, Hattr, Hcurrent. simpl.
    destruct s as [|c s]; [contradiction|]. simpl.
    eexists. eexists. split; [reflexivity|]. simpl.
    repeat split; reflexivity.
  - destruct (getSearchParameters_fresh searchParameters props state _ _
                Hattr Hfresh) as (current & declared & Hc & Hdeclared & _).
    exists declared. split; [exact Hdeclared|].
    rewrite (getSearchParameters_declared _ _ _ _ _ _ _ Hattr Hcurrent
               Hdeclared). simpl.
    rewrite numOr_default. reflexivity.
Qed.

End DefaultRefinement.

(** ** Further evaluation on the example inputs *)

Lemma getCurrentRefinement_never_empty_witness :
  Props.attributes brand = Some ["brand"]
  /\ exists current,
       getCurrentRefinement brand ∅ = Ok current /\ current <> VString "".
Proof.
  split; [reflexivity|].
  destruct (getCurrentRefinement_never_empty brand ∅ ["brand"])
    as (current & Hcurrent & _ & Hne); [reflexivity|].
  exists current. split; [exact Hcurrent|exact Hne].
Defined.

Lemma refine_other_widget_witness :
  Props.attributes categories = Some ["categories"]
  /\ Props.attributes brand = Some ["brand"]
  /\ "categories" <> "brand"
  /\ exists state',
       refine categories ∅ (VString "Shoes") = Ok state'
       /\ getCurrentRefinement brand state' = getCurrentRefinement brand ∅.
Proof.
  split; [reflexivity|]. split; [reflexivity|]. split; [discriminate|].
  destruct (refine_other_widget categories brand ∅ (VString "Shoes")
              "categories" "brand" [] [])
    as (state' & Hrefine & _ & Hcurrent);
    [reflexivity|reflexivity|discriminate|].
  exists state'. split; [exact Hrefine|exact Hcurrent].
Defined.

Lemma refine_overwrites_witness :
  Props.attributes categories = Some ["categories"]
  /\ exists state1 state2,
       refine categories ∅ (VString "Shoes") = Ok state1
       /\ refine categories state1 (VString "Hats") = Ok state2
       /\ refine categories ∅ (VString "Hats") = Ok state2.
Proof.
  split; [reflexivity|].
  apply (refine_overwrites categories ∅ (VString "Shoes") (VString "Hats")
           "categories" []).
  reflexivity.
Defined.

Lemma refine_sets_current_witness :
  Props.attributes brand = Some ["brand"]
  /\ exists state',
       refine brand ∅ (VString "") = Ok state'
       /\ getCurrentRefinement brand state' = Ok VNull.
Proof.
  split; [reflexivity|].
  apply (refine_sets_current brand ∅ (VString "") "brand" []).
  reflexivity.
Defined.

Lemma getMetadata_value_clears_witness :
  exists metadata item,
    Props.attributes brand = Some ["brand"]
    /\ getMetadata brand ∅ = Ok metadata
    /\ item ∈ Metadata.items metadata
    /\ getCurrentRefinement brand
         (MetaItem.value item {[ "brand" := VString "Zenith" ]}) = Ok VNull.
Proof.
  eexists. eexists.
  split; [reflexivity|]. split; [reflexivity|].
  split; [simpl; left|].
  eapply (getMetadata_value_clears brand ∅ _ _ _ "brand" []);
    [reflexivity|reflexivity|simpl; left].
Defined.

Lemma transformValue_keeps_fields_witness :
  Props.attributes categories = Some ["categories"]
  /\ exists items,
       transformValue (engine := FlatEngine.engine) threeLeaves 2
         categories ∅ = Ok items
       /\ (length items <= 3)%nat.
Proof.
  split; [reflexivity|].
  destruct (transformValue_keeps_fields (engine := FlatEngine.engine)
              threeLeaves 2 categories ∅ ["categories"])
    as (items & Hitems & Hlen & _); [reflexivity|].
  exists items. split; [exact Hitems|exact Hlen].
Defined.

Lemma transformValue_wide_witness :
  Props.attributes categories = Some ["categories"]
  /\ valuesWithin 2 [shoes] = true
  /\ exists valueOf,
       transformValue (engine := FlatEngine.engine) [shoes] 2 categories
         {[ "categories" := VString "Shoes" ]}
       = Ok (map (displayTree valueOf) [shoes]).
Proof.
  split; [reflexivity|]. split; [reflexivity|].
  destruct (transformValue_wide (engine := FlatEngine.engine) [shoes] 2
              categories {[ "categories" := VString "Shoes" ]}
              ["categories"]) as (valueOf & _ & Hitems);
    [reflexivity|reflexivity|].
  exists valueOf. exact Hitems.
Defined.

Lemma transformValue_unrefined_witness :
  getCurrentRefinement categories ∅ = Ok VNull
  /\ valuesWithin 10 [shoes] = true
  /\ transformValue (engine := FlatEngine.engine) [shoes] 10 categories ∅
     = Ok (map (displayTree VString) [shoes]).
Proof.
  split; [reflexivity|]. split; [reflexivity|].
  apply (transformValue_unrefined (engine := FlatEngine.engine));
    reflexivity.
Defined.

Lemma transformValue_negative_limit_witness :
  Props.attributes categories = Some ["categories"]
  /\ -1 < 0
  /\ exists items,
       transformValue (engine := FlatEngine.engine) threeLeaves (-1)
         categories ∅ = Ok items
       /\ Z.of_nat (length items) = 2.
Proof.
  split; [reflexivity|]. split; [lia|].
  destruct (transformValue_negative_limit (engine := FlatEngine.engine)
              threeLeaves (-1) categories ∅ ["categories"])
    as (items & Hitems & Hlen); [reflexivity|lia|].
  exists items. split; [exact Hitems|exact Hlen].
Defined.

Lemma helpers_throw_without_attributes_witness :
  Props.attributes (withAttributes categories None) = None
  /\ exists message,
       getValue (engine := FlatEngine.engine) "Shoes"
         (withAttributes categories None) ∅ = Throw (TypeError message).
Proof.
  split; [reflexivity|].
  destruct (helpers_throw_without_attributes (engine := FlatEngine.engine)
              (withAttributes categories None) ∅)
    as (message & _ & Hvalue & _); [reflexivity|].
  exists message. apply Hvalue.
Defined.

Lemma getCurrentRefinement_empty_attributes_witness :
  Props.attributes (withAttributes categories (Some [])) = Some []
  /\ getCurrentRefinement (withAttributes categories (Some []))
       {[ "undefined" := VString "Shoes" ]} = Ok (VString "Shoes").
Proof.
  split; [reflexivity|].
  destruct (getCurrentRefinement_empty_attributes
              (withAttributes categories (Some []))
              {[ "undefined" := VString "Shoes" ]}) as (_ & Hread & _);
    [reflexivity|].
  apply Hread; [discriminate|reflexivity].
Defined.

Lemma getSearchParameters_maxValuesPerFacet_exact_witness :
  Props.attributes categories = Some ["categories"]
  /\ isHierarchicalFacet (Engine := FlatEngine.engine) fiftyValues
       (VString "categories") = false
  /\ exists searchParameters',
       getSearchParameters (engine := FlatEngine.engine) fiftyValues
         categories ∅ = Ok searchParameters'
       /\ FlatEngine.maxValues searchParameters' = Some 50.
Proof.
  split; [reflexivity|]. split; [reflexivity|].
  destruct (getSearchParameters_maxValuesPerFacet_exact
              (engine := FlatEngine.engine) fiftyValues categories ∅
              "categories" []) as (sp' & Hreturn & _ & Hkept);
    [reflexivity|reflexivity|].
  exists sp'. split; [exact Hreturn|].
  apply Hkept; [reflexivity|simpl; lia].
Defined.

Lemma getSearchParameters_two_widgets_witness :
  Props.attributes categories = Some ["categories"]
  /\ Props.attributes brand = Some ["brand"]
  /\ "categories" <> "brand"
  /\ isHierarchicalFacet (Engine := FlatEngine.engine) fiftyValues
       (VString "categories") = false
  /\ isHierarchicalFacet (Engine := FlatEngine.engine) fiftyValues
       (VString "brand") = false
  /\ exists after1 after12 m,
       getSearchParameters (engine := FlatEngine.engine) fiftyValues
         categories ∅ = Ok after1
       /\ getSearchParameters after1 brand ∅ = Ok after12
       /\ FlatEngine.maxValues after12 = Some m
       /\ 30 <= m.
Proof.
  split; [reflexivity|]. split; [reflexivity|]. split; [discriminate|].
  split; [reflexivity|]. split; [reflexivity|].
  destruct (getSearchParameters_two_widgets (engine := FlatEngine.engine)
              fiftyValues categories brand ∅ "categories" "brand" [] [])
    as (after1 & after12 & _ & _ & m & H1 & H12 & _ & _ & Hm & _ & _ & Hl);
    [reflexivity|reflexivity|discriminate|reflexivity|reflexivity|].
  exists after1, after12, m.
  split; [exact H1|]. split; [exact H12|]. split; [exact Hm|exact Hl].
Defined.

Lemma getProps_at_most_limit_witness :
  Props.attributes categories = Some ["categories"]
  /\ 0 <= Props.limitMin categories
  /\ exists viewProps,
       getProps categories ∅ shoeResults = Ok (Some viewProps)
       /\ Z.of_nat (length (ViewProps.items viewProps)) <= 10.
Proof.
  split; [reflexivity|]. split; [simpl; lia|].
  destruct (getProps_at_most_limit (engine := FlatEngine.engine)
              categories ∅ shoeResults "categories" []
              {[ "categories" := {| FacetValues.data := Some [shoes] |} ]}
              {| FacetValues.data := Some [shoes] |})
    as (viewProps & Hreturn & Hlen & _);
    [reflexivity|reflexivity|reflexivity|simpl; lia|].
  exists viewProps. split; [exact Hreturn|exact Hlen].
Defined.

Lemma entry_points_read_own_entry_witness :
  Props.attributes categories = Some ["categories"]
  /\ ({[ "categories" := VString "Shoes" ]} : State) !! "categories"
     = ({[ "categories" := VString "Shoes"; "brand" := VString "Acme" ]}
          : State) !! "categories"
  /\ getProps categories {[ "categories" := VString "Shoes" ]} shoeResults
     = getProps categories
         {[ "categories" := VString "Shoes"; "brand" := VString "Acme" ]}
         shoeResults.
Proof.
  split; [reflexivity|]. split; [vm_compute; reflexivity|].
  apply (entry_points_read_own_entry (engine := FlatEngine.engine)
           categories {[ "categories" := VString "Shoes" ]}
           {[ "categories" := VString "Shoes"; "brand" := VString "Acme" ]}
           shoeResults fiftyValues "categories" []);
    [reflexivity|vm_compute; reflexivity].
Defined.

Lemma default_refinement_applies_witness :
  Props.attributes brand = Some ["brand"]
  /\ (∅ : State) !! "brand" = None
  /\ Props.defaultRefinement brand = VString "Acme"
  /\ isHierarchicalFacet (Engine := FlatEngine.engine) fiftyValues
       (VString "brand") = false
  /\ exists metadata item,
       getMetadata brand ∅ = Ok metadata
       /\ Metadata.items metadata = [item]
       /\ MetaItem.label item = "brand: Acme".
Proof.
  split; [reflexivity|]. split; [reflexivity|]. split; [reflexivity|].
  split; [reflexivity|].
  destruct (default_refinement_applies (engine := FlatEngine.engine)
              brand ∅ fiftyValues "brand" [] "Acme")
    as [(metadata & item & Hreturn & _ & Hitems & Hlabel & _) _];
    [reflexivity|reflexivity|reflexivity|discriminate|reflexivity|].
  exists metadata, item.
  split; [exact Hreturn|]. split; [exact Hitems|exact Hlabel].
Defined.
